(** * skfuzzy.control.fuzzyvariable: the FuzzyVariable class

    A shallow embedding of [src/skfuzzy/control/fuzzyvariable.py]: the
    membership-function registry, the indexed access protocol
    ([__getitem__] / [__setitem__]) and the automatic partitioning [automf].

    Conventions of the embedding.
    - NumPy's float64 numbers are modelled by exact rationals [Q]; the
      statements below are about the formulas the code evaluates, not about
      rounding.
    - A Python call is a function from the instance to an [outcome] paired
      with the instance as the call leaves it; an exception that is raised
      ([Raised]) is kept apart from a value that is returned ([Returned]),
      also when that value is itself an exception object.
    - The registry is an [OrderedDict]: an association list in insertion
      order, whose assignment replaces in place or appends.
    - The module is Python 2 code ([iterkeys]); labels and keys are byte
      strings. *)

From Stdlib Require Import ZArith QArith Qminmax Lqa Lia.
From Stdlib Require Import List Bool Ascii String DecimalString.
Import ListNotations.

Local Open Scope Z_scope.
Local Open Scope string_scope.
Local Open Scope list_scope.

(** ** Python values *)

(** What a caller passes as a membership function or a universe: a plain
    Python list of numbers or a one-dimensional [numpy.ndarray]. *)
Inductive array_like : Type :=
| PyList (xs : list Q)
| NdArray (xs : list Q).

Definition elements (a : array_like) : list Q :=
  match a with
  | PyList xs => xs
  | NdArray xs => xs
  end.

(** [np.asarray]: a list is converted, an array is passed through. *)
Definition asarray (a : array_like) : array_like := NdArray (elements a).

(** [np.array_equal]: both sides converted, then compared element by element
    (here: the same rationals). *)
Definition array_equal (a b : array_like) : Prop :=
  elements (asarray a) = elements (asarray b).

Inductive exn : Type :=
| ValueError (msg : string)
| AttributeError (msg : string).

Inductive outcome (A : Type) : Type :=
| Returned (a : A)
| Raised (e : exn).
Arguments Returned {A} a.
Arguments Raised {A} e.

(** What the three methods hand back when they return: [None], [self], or,
    on one path of [automf], an exception object. *)
Inductive retval : Type :=
| RNone
| RSelf
| RException (e : exn).

(** [a.size] of an ndarray; a list has no such attribute. *)
Definition ndarray_size (xs : list Q) : Z := Z.of_nat (List.length xs).

Definition attr_size (a : array_like) : outcome Z :=
  match a with
  | NdArray xs => Returned (ndarray_size xs)
  | PyList _ => Raised (AttributeError "'list' object has no attribute 'size'")
  end.

(** ** Strings *)

Definition nl : string := String (ascii_of_nat 10) EmptyString.

(** [str(n)] for an integer. *)
Definition str_int (n : Z) : string := NilZero.string_of_int (Z.to_int n).

(** [str(x)] for a label that may be [None]. *)
Definition str_opt (s : option string) : string :=
  match s with
  | Some s => s
  | None => "None"
  end.

Definition lower_ascii (c : ascii) : ascii :=
  let n := nat_of_ascii c in
  if (65 <=? n)%nat && (n <=? 90)%nat then ascii_of_nat (n + 32) else c.

(** [s.lower()] on a byte string. *)
Fixpoint lower (s : string) : string :=
  match s with
  | EmptyString => EmptyString
  | String c s' => String (lower_ascii c) (lower s')
  end.

(** ** OrderedDict *)

Module OrderedDict.

Definition t (V : Type) : Type := list (string * V).

Definition empty {V : Type} : t V := [].

Definition keys {V : Type} (d : t V) : list string := map fst d.

Definition values {V : Type} (d : t V) : list V := map snd d.

Fixpoint contains {V : Type} (k : string) (d : t V) : bool :=
  match d with
  | [] => false
  | (k', _) :: d' => if String.eqb k k' then true else contains k d'
  end.

Fixpoint get {V : Type} (k : string) (d : t V) : option V :=
  match d with
  | [] => None
  | (k', v) :: d' => if String.eqb k k' then Some v else get k d'
  end.

(** [d[k] = v]: an existing key keeps its position, a new one goes last. *)
Fixpoint set {V : Type} (k : string) (v : V) (d : t V) : t V :=
  match d with
  | [] => [(k, v)]
  | (k', v') :: d' =>
      if String.eqb k k' then (k', v) :: d' else (k', v') :: set k v d'
  end.

End OrderedDict.

(** ** The instance *)

Record FuzzyVariable : Type := mkFuzzyVariable {
  universe : list Q;                       (* an ndarray *)
  active : option string;
  mf : OrderedDict.t array_like;
  label : option string;
  connections : OrderedDict.t unit;
  _id : Z;
  output : option (OrderedDict.t Q);
  (* The instance attribute [__name__]: [__init__] does not create it; the
     subclasses the class is a base for assign it in their own [__init__]. *)
  __name__ : option string
}.

Definition set_active (self : FuzzyVariable) (a : option string) :=
  mkFuzzyVariable (universe self) a (mf self) (label self)
    (connections self) (_id self) (output self) (__name__ self).

Definition set_mf (self : FuzzyVariable) (m : OrderedDict.t array_like) :=
  mkFuzzyVariable (universe self) (active self) m (label self)
    (connections self) (_id self) (output self) (__name__ self).

Definition set_output (self : FuzzyVariable) (o : option (OrderedDict.t Q)) :=
  mkFuzzyVariable (universe self) (active self) (mf self) (label self)
    (connections self) (_id self) o (__name__ self).

Definition set_name (self : FuzzyVariable) (n : string) :=
  mkFuzzyVariable (universe self) (active self) (mf self) (label self)
    (connections self) (_id self) (output self) (Some n).

(** A method call: the outcome and the instance afterwards. *)
Definition M (A : Type) : Type := FuzzyVariable -> outcome A * FuzzyVariable.

(** [FuzzyVariable.__init__(universe, label)]; [addr] is [id(self)]. *)
Definition __init__ (addr : Z) (u : array_like) (lbl : option string)
  : FuzzyVariable :=
  {| universe := elements (asarray u);
     active := None;
     mf := OrderedDict.empty;
     label := lbl;
     connections := OrderedDict.empty;
     _id := addr;
     output := None;
     __name__ := None |}.

(** A subclass instance: the base [__init__], then [self.__name__ = name]. *)
Definition init_named (name : string) (addr : Z) (u : array_like)
  (lbl : option string) : FuzzyVariable :=
  set_name (__init__ addr u lbl) name.

(** Reading [self.__name__]. *)
Definition get_name (self : FuzzyVariable) : outcome string :=
  match __name__ self with
  | Some n => Returned n
  | None =>
      Raised (AttributeError
                "'FuzzyVariable' object has no attribute '__name__'")
  end.

(** ** __getitem__ *)

Fixpoint enumerate_from {A : Type} (i : Z) (l : list A) : list (Z * A) :=
  match l with
  | [] => []
  | x :: l' => (i, x) :: enumerate_from (i + 1) l'
  end.

Definition enumerate {A : Type} (l : list A) : list (Z * A) :=
  enumerate_from 0 l.

(** One pass of the loop body of the [else] branch. *)
Definition options_step (i0 i1 : Z) (options : string) (p : Z * string)
  : string :=
  let (i, available_key) := p in
  if (i =? i1)%Z then options ++ "'" ++ available_key ++ "', or "
  else if (i =? i0)%Z then options ++ "'" ++ available_key ++ "'."
  else options ++ "'" ++ available_key ++ "'; ".

Definition build_options (d : OrderedDict.t array_like) : string :=
  let options := "" in
  let i0 := Z.of_nat (List.length d) - 1 in
  let i1 := Z.of_nat (List.length d) - 2 in
  fold_left (options_step i0 i1) (enumerate (OrderedDict.keys d)) options.

Definition getitem_message (key name : string) (lbl : option string)
  (options : string) : string :=
  "Membership function '" ++ key ++ "' does not exist for "
    ++ name ++ " " ++ str_opt lbl ++ "." ++ nl
    ++ "Available options: " ++ options.

Definition __getitem__ (key : string) : M retval := fun self =>
  if OrderedDict.contains key (mf self) then
    (Returned RSelf, set_active self (Some key))
  else
    let options := build_options (mf self) in
    match get_name self with
    | Raised e => (Raised e, self)
    | Returned name =>
        (Raised (ValueError (getitem_message key name (label self) options)),
         self)
    end.

(** ** __setitem__ *)

Definition setitem_message (key : string) (expected got : Z) : string :=
  "New membership function " ++ key ++ " must be equivalent "
    ++ "in length to the universe variable." ++ nl
    ++ "Expected " ++ str_int expected ++ ", got " ++ str_int got ++ ".".

Definition __setitem__ (key : string) (item : array_like) : M retval :=
  fun self =>
  let mf_ := asarray item in
  if negb (ndarray_size (elements mf_) =? ndarray_size (universe self))%Z then
    match attr_size item with
    | Raised e => (Raised e, self)
    | Returned got =>
        (Raised (ValueError
                   (setitem_message key (ndarray_size (universe self)) got)),
         self)
    end
  else
    (Returned RNone, set_mf self (OrderedDict.set key item (mf self))).

(** ** NumPy and list helpers used by automf *)

(** [l[start:stop:step]] for non-negative bounds and a positive step. *)
Fixpoint slice_aux {A : Type} (l : list A) (i start stop step : nat)
  : list A :=
  match l with
  | [] => []
  | x :: l' =>
      if (start <=? i)%nat && (i <? stop)%nat
         && ((i - start) mod step =? 0)%nat
      then x :: slice_aux l' (S i) start stop step
      else slice_aux l' (S i) start stop step
  end.

Definition slice {A : Type} (l : list A) (start stop step : nat) : list A :=
  slice_aux l 0%nat start stop step.

(** [l[::-1]]. *)
Definition reversed {A : Type} (l : list A) : list A := rev l.

(** [zip(xs, ys)]. *)
Definition zip {A B : Type} (xs : list A) (ys : list B) : list (A * B) :=
  combine xs ys.

(** [[x] * n]: a non-positive count gives the empty list. *)
Definition list_mul {A : Type} (x : A) (n : Z) : list A :=
  repeat x (Z.to_nat n).

Definition qmin (x y : Q) : Q := if Qle_bool x y then x else y.
Definition qmax (x y : Q) : Q := if Qle_bool x y then y else x.

Definition zero_size_error (what : string) : exn :=
  ValueError ("zero-size array to reduction operation " ++ what
                ++ " which has no identity").

(** [a.min()] and [a.max()]: an empty array raises. *)
Definition ndarray_min (xs : list Q) : outcome Q :=
  match xs with
  | [] => Raised (zero_size_error "minimum")
  | x :: xs' => Returned (fold_left qmin xs' x)
  end.

Definition ndarray_max (xs : list Q) : outcome Q :=
  match xs with
  | [] => Raised (zero_size_error "maximum")
  | x :: xs' => Returned (fold_left qmax xs' x)
  end.

(** Replace the last element of a list, as [y[-1] = stop] does. *)
Fixpoint set_last {A : Type} (l : list A) (v : A) : list A :=
  match l with
  | [] => []
  | [_] => [v]
  | x :: l' => x :: set_last l' v
  end.

(** [np.linspace(start, stop, num)] with the default [endpoint=True]:
    [arange(num) * step + start] with [step = (stop - start) / (num - 1)],
    and the last sample set to [stop] when there is more than one. *)
Definition linspace (start stop : Q) (num : Z) : list Q :=
  let step := ((stop - start) / inject_Z (num - 1))%Q in
  let y := map (fun i => (inject_Z (Z.of_nat i) * step + start)%Q)
               (seq 0 (Z.to_nat num)) in
  if (1 <? num)%Z then set_last y stop else y.

(** Modelled from the spec: [skfuzzy.membership.trimf], which the module
    imports and whose source is not in this file.  Section 4.1: for each
    universe point [x] the degree is 1 at [x = b], 0 for [x <= a] or
    [x >= c], rises linearly over [[a, b]] and falls linearly over [[b, c]];
    the result has the length of the universe. *)
Definition trimf_at (a b c x : Q) : Q :=
  if Qeq_bool x b then 1%Q
  else if Qle_bool x a || Qle_bool c x then 0%Q
  else if Qle_bool x b then ((x - a) / (b - a))%Q
  else ((c - x) / (c - b))%Q.

Definition trimf (x : list Q) (abc : list Q) : array_like :=
  match abc with
  | [a; b; c] => NdArray (map (trimf_at a b c) x)
  | _ => NdArray (map (fun _ => 0%Q) x)
  end.

(** ** automf *)

Definition quality_names : list string :=
  ["dismal"; "poor"; "mediocre"; "average"; "decent"; "good"; "excellent"].

Definition quant_names : list string :=
  ["lowest"; "lower"; "low"; "average"; "high"; "higher"; "highest"].

(** Lines 166-189: the names, before [number] is validated. *)
Definition automf_names (number : Z) (variable_type : string) (invert : bool)
  : list string :=
  let names :=
    if String.eqb (lower variable_type) "quality" then quality_names
    else quant_names in
  let names := if (number =? 3)%Z then slice names 1 6 2 else names in
  let names := if (number =? 5)%Z then slice names 1 6 1 else names in
  if invert then reversed names else names.

(** Lines 196-201: the breakpoint triples, from the two limits. *)
Definition automf_centers (lo hi : Q) (number : Z) : list Q :=
  linspace lo hi number.

Definition automf_widths (lo hi : Q) (number : Z) : list Q :=
  let universe_range := (hi - lo)%Q in
  list_mul (universe_range / ((inject_Z number - 1) / 2))%Q number.

Definition automf_abcs (lo hi : Q) (number : Z) : list (list Q) :=
  map (fun cw : Q * Q =>
         let (c, w) := cw in [(c - w / 2)%Q; c; (c + w / 2)%Q])
      (zip (automf_centers lo hi number) (automf_widths lo hi number)).

(** Lines 211-212: the loop [self[name] = trimf(self.universe, abc)]. *)
Fixpoint repopulate (pairs : list (string * list Q)) : M retval :=
  fun self =>
  match pairs with
  | [] => (Returned RNone, self)
  | (name, abc) :: rest =>
      match __setitem__ name (trimf (universe self) abc) self with
      | (Raised e, self') => (Raised e, self')
      | (Returned _, self') => repopulate rest self'
      end
  end.

Definition automf (number : Z) (variable_type : string) (invert : bool)
  : M retval :=
  fun self =>
  let names := automf_names number variable_type invert in
  if negb (number =? 3)%Z && negb (number =? 5)%Z && negb (number =? 7)%Z
  then (Returned (RException
                    (ValueError "Only number = 3, 5, or 7 supported.")),
        self)
  else
    match ndarray_min (universe self), ndarray_max (universe self) with
    | Raised e, _ => (Raised e, self)
    | Returned _, Raised e => (Raised e, self)
    | Returned lo, Returned hi =>
        let abcs := automf_abcs lo hi number in
        (* Clear existing membership functions, if any *)
        let self := set_mf self OrderedDict.empty in
        match get_name self with
        | Raised e => (Raised e, self)
        | Returned name =>
            let self :=
              if String.eqb name "Antecedent"
              then set_output self (Some OrderedDict.empty)
              else set_output self None in
            (* Repopulate *)
            repopulate (zip names abcs) self
        end
    end.

(** ** Sequences of calls *)

Inductive call : Type :=
| Getitem (key : string)
| Setitem (key : string) (item : array_like)
| Automf (number : Z) (variable_type : string) (invert : bool).

Definition run_call (c : call) : M retval :=
  match c with
  | Getitem key => __getitem__ key
  | Setitem key item => __setitem__ key item
  | Automf number variable_type invert => automf number variable_type invert
  end.

(** The instance after a sequence of calls, each made whether or not the one
    before it raised (the caller may catch and go on). *)
Definition run_calls (cs : list call) (self : FuzzyVariable) : FuzzyVariable :=
  fold_left (fun s c => snd (run_call c s)) cs self.

(** [np.linspace(0, 10, 11)]. *)
Definition u_0_10 : array_like := NdArray (linspace 0 10 11).

(** The instance the label-lookup scenarios use: an Antecedent named "food"
    over a three-point universe, holding whatever [cs] builds. *)
Definition food (cs : list call) : FuzzyVariable :=
  run_calls cs
    (init_named "Antecedent" 0 (PyList [0%Q; 1%Q; 2%Q]) (Some "food")).

(** ** Notions the statements use *)

Definition supported (number : Z) : Prop :=
  number = 3 \/ number = 5 \/ number = 7.

Definition no_name_error : exn :=
  AttributeError "'FuzzyVariable' object has no attribute '__name__'".

(** Every entry but the last two: quoted and followed by a semicolon. *)
Fixpoint semicolon_entries (ks : list string) : string :=
  match ks with
  | [] => ""
  | k :: ks' => "'" ++ k ++ "'; " ++ semicolon_entries ks'
  end.

(** The text the loop appends for the keys that remain. *)
Fixpoint options_text (ks : list string) : string :=
  match ks with
  | [] => ""
  | [k] => "'" ++ k ++ "'."
  | [k1; k2] => "'" ++ k1 ++ "', or " ++ "'" ++ k2 ++ "'."
  | k :: ks' => "'" ++ k ++ "'; " ++ options_text ks'
  end.

(** [s.endswith(suffix)]. *)
Definition ends_with (s suffix : string) : bool :=
  String.eqb
    (substring (String.length s - String.length suffix)
       (String.length suffix) s)
    suffix.

(** The format the label list is said to have: the last registered label,
    quoted, comes right after "or " and is closed by a period. *)
Definition announces_last_with_or (d : OrderedDict.t array_like) : bool :=
  match rev (OrderedDict.keys d) with
  | [] => true
  | last :: _ => ends_with (build_options d) ("or '" ++ last ++ "'.")
  end.

(** The registry entries the loop of lines 211-212 writes. *)
Definition generated (u : list Q) (pairs : list (string * list Q))
  : OrderedDict.t array_like :=
  map (fun p => (fst p, trimf u (snd p))) pairs.

(** All the widths are the one value. *)
Definition automf_width (lo hi : Q) (number : Z) : Q :=
  ((hi - lo) / ((inject_Z number - 1) / 2))%Q.

(** The instance a successful [automf] leaves. *)
Definition after_automf (self : FuzzyVariable) (name : string)
  (names : list string) (abcs : list (list Q)) : FuzzyVariable :=
  {| universe := universe self;
     active := active self;
     mf := generated (universe self) (zip names abcs);
     label := label self;
     connections := connections self;
     _id := _id self;
     output := if String.eqb name "Antecedent"
               then Some OrderedDict.empty else None;
     __name__ := Some name |}.

(** The universe points at which a membership array reaches 1. *)
Definition peak_points (u : list Q) (m : array_like) : list Q :=
  map fst (filter (fun p => Qeq_bool (snd p) 1) (combine u (elements m))).

(** A registry with every number in lowest terms, for comparison. *)
Definition reduced (d : OrderedDict.t array_like)
  : list (string * list Q) :=
  map (fun kv => (fst kv, map Qred (elements (snd kv)))) d.

Definition within_unit (xs : list Q) : Prop :=
  Forall (fun y => (0 <= y)%Q /\ (y <= 1)%Q) xs.

Definition entry_ok (P : list Q -> Prop) (u : list Q)
  (kv : string * array_like) : Prop :=
  List.length (elements (snd kv)) = List.length u /\ P (elements (snd kv)).

Definition registry_ok (P : list Q -> Prop) (self : FuzzyVariable) : Prop :=
  Forall (entry_ok P (universe self)) (mf self).

Definition call_ok (P : list Q -> Prop) (c : call) : Prop :=
  match c with
  | Setitem _ item => P (elements item)
  | _ => True
  end.

(** Every stored array has the length of the universe. *)
Definition lengths_match (self : FuzzyVariable) : Prop :=
  registry_ok (fun _ => True) self.

(** Every stored array has the length of the universe and holds degrees
    between 0 and 1. *)
Definition lengths_and_degrees (self : FuzzyVariable) : Prop :=
  registry_ok within_unit self.

(** Every indexed write of the sequence assigns degrees between 0 and 1. *)
Definition writes_within_unit (cs : list call) : Prop :=
  Forall (call_ok within_unit) cs.

(** [FuzzyVariable(universe, label)], or a subclass that sets a name. *)
Definition construct (name : option string) (addr : Z) (u : array_like)
  (lbl : option string) : FuzzyVariable :=
  match name with
  | Some n => init_named n addr u lbl
  | None => __init__ addr u lbl
  end.

(** ** _variable_figure_generator *)

(** The calls the method makes on the axes it creates, with their
    arguments, in the order it makes them. *)
Inductive ax_call : Type :=
| SetYlim (lo hi : Q)
| SetXlim (lo hi : Q)
| Plot (x : list Q) (y : array_like) (label : string) (lw : Z)
| Legend (framealpha : Q)
| TickParams (direction : string)
| SetYlabel (s : string)
| SetXlabel (s : string).

(** [key == self.active], where [active] may be [None]. *)
Definition is_active (self : FuzzyVariable) (key : string) : bool :=
  match active self with
  | Some a => String.eqb key a
  | None => false
  end.

(** Lines 100-109: one [plot] per entry of the registry. *)
Definition plot_calls (self : FuzzyVariable) : list ax_call :=
  map (fun kv : string * array_like =>
         let (key, value) := kv in
         let lw := if is_active self key then 2 else 1 in
         Plot (universe self) value key lw)
      (mf self).

(** The calls made on the axes and how the method ends; the fields of the
    instance modelled here are only read. *)
Definition _variable_figure_generator (self : FuzzyVariable)
  : list ax_call * outcome retval :=
  let made := [SetYlim 0 1] in
  match ndarray_min (universe self), ndarray_max (universe self) with
  | Raised e, _ => (made, Raised e)
  | Returned _, Raised e => (made, Raised e)
  | Returned lo, Returned hi =>
      let made := made ++ [SetXlim lo hi] in
      let made := made ++ plot_calls self in
      let made := made ++ [Legend (1 # 2); TickParams "out"] in
      let label :=
        match label self with
        | None => EmptyString
        | Some l => l
        end in
      (made ++ [SetYlabel "Membership"; SetXlabel label], Returned RNone)
  end.

(** The label and the line width of each curve drawn. *)
Fixpoint curves (made : list ax_call) : list (string * Z) :=
  match made with
  | [] => []
  | Plot _ _ label lw :: made' => (label, lw) :: curves made'
  | _ :: made' => curves made'
  end.

(** The labels drawn with the heavier line. *)
Definition emphasised (made : list ax_call) : list string :=
  map fst (filter (fun c => (snd c =? 2)%Z) (curves made)).

(** ** Further notions the statements use *)

(** What identifies the variable: everything but the registry, the active
    label and the output slot. *)
Definition same_identity (self self' : FuzzyVariable) : Prop :=
  universe self' = universe self
  /\ label self' = label self
  /\ connections self' = connections self
  /\ _id self' = _id self
  /\ __name__ self' = __name__ self.

(** * Properties *)

(** ** OrderedDict facts *)

Lemma od_get_set_same {V : Type} (k : string) (v : V) (d : OrderedDict.t V) :
  OrderedDict.get k (OrderedDict.set k v d) = Some v.
Proof.
  induction d as [|[k' v'] d IH]; simpl.
  - now rewrite String.eqb_refl.
  - destruct (String.eqb k k') eqn:E; simpl; rewrite E; auto.
Qed.

Lemma od_set_fresh {V : Type} (k : string) (v : V) (d : OrderedDict.t V) :
  OrderedDict.contains k d = false ->
  OrderedDict.set k v d = d ++ [(k, v)].
Proof.
  induction d as [|[k' v'] d IH]; simpl; intros H.
  - reflexivity.
  - destruct (String.eqb k k'); [discriminate|].
    now rewrite IH.
Qed.

Lemma od_contains_app {V : Type} (k : string) (d1 d2 : OrderedDict.t V) :
  OrderedDict.contains k (d1 ++ d2)
  = OrderedDict.contains k d1 || OrderedDict.contains k d2.
Proof.
  induction d1 as [|[k' v'] d1 IH]; simpl; auto.
  destruct (String.eqb k k'); auto.
Qed.

Lemma od_contains_In {V : Type} (k : string) (d : OrderedDict.t V) :
  OrderedDict.contains k d = true <-> In k (OrderedDict.keys d).
Proof.
  induction d as [|[k' v'] d IH]; simpl.
  - split; [discriminate | tauto].
  - destruct (String.eqb_spec k k') as [->|N].
    + tauto.
    + rewrite IH. split; [tauto|]. intros [E|I]; [congruence | exact I].
Qed.

(** ** Validation of [number] in automf *)

Lemma automf_unsupported (number : Z) (variable_type : string)
  (invert : bool) (self : FuzzyVariable) :
  ~ supported number ->
  automf number variable_type invert self
  = (Returned (RException (ValueError "Only number = 3, 5, or 7 supported.")),
     self).
Proof.
  intros H. unfold automf.
  destruct (Z.eqb_spec number 3) as [E|_]; [exfalso; apply H; left; exact E|].
  destruct (Z.eqb_spec number 5) as [E|_];
    [exfalso; apply H; right; left; exact E|].
  destruct (Z.eqb_spec number 7) as [E|_];
    [exfalso; apply H; right; right; exact E|].
  reflexivity.
Qed.

(** C1: [automf(4)] does not raise.  The call returns normally and the value
    it hands back is the [ValueError] object built on line 194; the instance
    is as it was. *)
Theorem automf_4_returns_the_exception_object
  (variable_type : string) (invert : bool) (self : FuzzyVariable) :
  automf 4 variable_type invert self
  = (Returned (RException (ValueError "Only number = 3, 5, or 7 supported.")),
     self)
  /\ (forall e, fst (automf 4 variable_type invert self) <> Raised e).
Proof.
  assert (U : ~ supported 4) by (unfold supported; lia).
  rewrite (automf_unsupported 4 variable_type invert self U).
  split; [reflexivity | simpl; discriminate].
Qed.

(** C4: when [number] is not 3, 5 or 7, [automf] leaves the instance, and so
    every entry of its registry, exactly as it found it. *)
Theorem automf_unsupported_keeps_registry
  (number : Z) (variable_type : string) (invert : bool)
  (self : FuzzyVariable) :
  ~ supported number ->
  snd (automf number variable_type invert self) = self
  /\ mf (snd (automf number variable_type invert self)) = mf self.
Proof.
  intros H. rewrite (automf_unsupported _ _ _ _ H). simpl. auto.
Qed.

Lemma automf_unsupported_keeps_registry_witness :
  let self := food [Setitem "low" (PyList [1%Q; 0%Q; 0%Q]);
                    Setitem "high" (PyList [0%Q; 0%Q; 1%Q])] in
  ~ supported 4
  /\ mf self = [("low", PyList [1%Q; 0%Q; 0%Q]);
                ("high", PyList [0%Q; 0%Q; 1%Q])]
  /\ mf (snd (automf 4 "quality" false self)) = mf self.
Proof.
  intros self.
  assert (U : ~ supported 4) by (unfold supported; lia).
  split; [exact U|]. split; [reflexivity|].
  exact (proj2 (automf_unsupported_keeps_registry 4 "quality" false self U)).
Defined.

(** ** What the calls leave alone *)

Lemma setitem_frame (key : string) (item : array_like) (self : FuzzyVariable) :
  let self' := snd (__setitem__ key item self) in
  universe self' = universe self /\ __name__ self' = __name__ self.
Proof.
  unfold __setitem__.
  destruct (negb _); [destruct (attr_size item)|]; simpl; auto.
Qed.

Lemma getitem_frame (key : string) (self : FuzzyVariable) :
  let self' := snd (__getitem__ key self) in
  universe self' = universe self /\ __name__ self' = __name__ self
  /\ mf self' = mf self.
Proof.
  unfold __getitem__.
  destruct (OrderedDict.contains key (mf self)); [|destruct (get_name self)];
    simpl; auto.
Qed.

Lemma repopulate_frame (pairs : list (string * list Q)) :
  forall self,
    let self' := snd (repopulate pairs self) in
    universe self' = universe self /\ __name__ self' = __name__ self.
Proof.
  induction pairs as [|[name abc] rest IH]; intros self; simpl; auto.
  pose proof (setitem_frame name (trimf (universe self) abc) self) as F.
  destruct (__setitem__ name (trimf (universe self) abc) self) as [[r|e] s'];
    simpl in *; auto.
  destruct (IH s') as [U N]. destruct F as [FU FN].
  split; congruence.
Qed.

Lemma automf_frame (number : Z) (variable_type : string) (invert : bool)
  (self : FuzzyVariable) :
  let self' := snd (automf number variable_type invert self) in
  universe self' = universe self /\ __name__ self' = __name__ self.
Proof.
  unfold automf.
  destruct (negb (number =? 3)%Z && negb (number =? 5)%Z
            && negb (number =? 7)%Z); simpl; auto.
  destruct (ndarray_min (universe self)); simpl; auto.
  destruct (ndarray_max (universe self)); simpl; auto.
  unfold get_name; simpl.
  destruct (__name__ self) as [n|] eqn:E; simpl; auto.
  match goal with
  | |- context [repopulate ?p ?s] =>
      destruct (repopulate_frame p s) as [U N]
  end.
  cbv zeta in U, N. rewrite U, N.
  destruct (String.eqb n "Antecedent"); simpl; auto.
Qed.

Lemma run_call_frame (c : call) (self : FuzzyVariable) :
  universe (snd (run_call c self)) = universe self
  /\ __name__ (snd (run_call c self)) = __name__ self.
Proof.
  destruct c; simpl.
  - destruct (getitem_frame key self) as [U [N _]]. auto.
  - apply setitem_frame.
  - apply automf_frame.
Qed.

Lemma run_calls_frame (cs : list call) :
  forall self,
    universe (run_calls cs self) = universe self
    /\ __name__ (run_calls cs self) = __name__ self.
Proof.
  induction cs as [|c cs IH]; intros self; simpl; auto.
  destruct (IH (snd (run_call c self))) as [U N].
  destruct (run_call_frame c self) as [U' N'].
  unfold run_calls in *. simpl. split; congruence.
Qed.

(** ** Reading [__name__] on a base instance *)

Lemma getitem_without_name (key : string) (self : FuzzyVariable) :
  __name__ self = None ->
  OrderedDict.contains key (mf self) = false ->
  __getitem__ key self = (Raised no_name_error, self).
Proof.
  intros N C. unfold __getitem__, get_name. now rewrite C, N.
Qed.

Lemma automf_without_name (number : Z) (variable_type : string)
  (invert : bool) (self : FuzzyVariable) :
  __name__ self = None ->
  supported number ->
  universe self <> [] ->
  automf number variable_type invert self
  = (Raised no_name_error, set_mf self OrderedDict.empty).
Proof.
  intros N S U. unfold automf.
  replace (negb (number =? 3)%Z && negb (number =? 5)%Z
           && negb (number =? 7)%Z) with false
    by (destruct S as [->|[->| ->]]; reflexivity).
  destruct (universe self) as [|x xs] eqn:E; [congruence|].
  simpl. unfold get_name. simpl. now rewrite N.
Qed.

(** C10: an instance built by [__init__] never gets a [__name__], whatever
    calls are made on it afterwards; so an indexed read of a label that is
    not registered raises the attribute error, not the documented message,
    and [automf] with a supported [number] raises it at its output-slot
    step. *)
Theorem base_instance_has_no_name
  (addr : Z) (u : array_like) (lbl : option string) (cs : list call)
  (key : string) :
  let self := run_calls cs (__init__ addr u lbl) in
  OrderedDict.contains key (mf self) = false ->
  __name__ self = None
  /\ __getitem__ key self = (Raised no_name_error, self)
  /\ (forall number variable_type invert,
         supported number -> universe self <> [] ->
         fst (automf number variable_type invert self) = Raised no_name_error).
Proof.
  intros self C.
  assert (N : __name__ self = None).
  { unfold self.
    now rewrite (proj2 (run_calls_frame cs (__init__ addr u lbl))). }
  split; [exact N|]. split.
  - now apply getitem_without_name.
  - intros number vt inv S U.
    now rewrite (automf_without_name number vt inv self N S U).
Qed.

Lemma base_instance_has_no_name_witness :
  let self :=
    run_calls [Setitem "low" (PyList [1%Q; 0%Q; 0%Q])]
      (__init__ 0 (PyList [0%Q; 1%Q; 2%Q]) (Some "food")) in
  OrderedDict.contains "medium" (mf self) = false
  /\ __getitem__ "medium" self = (Raised no_name_error, self).
Proof.
  intros self.
  assert (C : OrderedDict.contains "medium" (mf self) = false)
    by reflexivity.
  split; [exact C|].
  exact (proj1 (proj2 (base_instance_has_no_name 0 (PyList [0%Q; 1%Q; 2%Q])
                         (Some "food")
                         [Setitem "low" (PyList [1%Q; 0%Q; 0%Q])]
                         "medium" C))).
Defined.

(** ** __setitem__ *)

Lemma setitem_same_size (key : string) (item : array_like)
  (self : FuzzyVariable) :
  List.length (elements item) = List.length (universe self) ->
  __setitem__ key item self
  = (Returned RNone, set_mf self (OrderedDict.set key item (mf self))).
Proof.
  intros L. unfold __setitem__, ndarray_size. simpl. rewrite L.
  now rewrite Z.eqb_refl.
Qed.

Lemma setitem_other_size_ndarray (key : string) (xs : list Q)
  (self : FuzzyVariable) :
  List.length xs <> List.length (universe self) ->
  __setitem__ key (NdArray xs) self
  = (Raised (ValueError
               (setitem_message key (ndarray_size (universe self))
                  (ndarray_size xs))),
     self).
Proof.
  intros L. unfold __setitem__, ndarray_size. simpl.
  destruct (Z.eqb_spec (Z.of_nat (List.length xs))
              (Z.of_nat (List.length (universe self)))) as [E|_];
    [lia | reflexivity].
Qed.

Lemma setitem_other_size_list (key : string) (xs : list Q)
  (self : FuzzyVariable) :
  List.length xs <> List.length (universe self) ->
  __setitem__ key (PyList xs) self
  = (Raised (AttributeError "'list' object has no attribute 'size'"), self).
Proof.
  intros L. unfold __setitem__, ndarray_size. simpl.
  destruct (Z.eqb_spec (Z.of_nat (List.length xs))
              (Z.of_nat (List.length (universe self)))) as [E|_];
    [lia | reflexivity].
Qed.

(** C6: a write whose value has the universe's length succeeds, and the
    registry then holds under that label the very object that was assigned,
    which is equal, as arrays are compared, to its conversion by
    [np.asarray]. *)
Theorem setitem_then_read_roundtrip
  (key : string) (arr : array_like) (self : FuzzyVariable) :
  List.length (elements arr) = List.length (universe self) ->
  let self' := snd (__setitem__ key arr self) in
  fst (__setitem__ key arr self) = Returned RNone
  /\ OrderedDict.get key (mf self') = Some arr
  /\ (exists stored,
         OrderedDict.get key (mf self') = Some stored
         /\ array_equal stored (asarray arr)).
Proof.
  intros L. rewrite (setitem_same_size key arr self L). simpl.
  rewrite od_get_set_same. split; [reflexivity|]. split; [reflexivity|].
  exists arr. split; reflexivity.
Qed.

Lemma setitem_then_read_roundtrip_witness :
  let self := food [] in
  let arr := PyList [1%Q; (1 # 2)%Q; 0%Q] in
  List.length (elements arr) = List.length (universe self)
  /\ OrderedDict.get "low" (mf (snd (__setitem__ "low" arr self))) = Some arr.
Proof.
  intros self arr.
  assert (L : List.length (elements arr) = List.length (universe self))
    by reflexivity.
  split; [exact L|].
  exact (proj1 (proj2 (setitem_then_read_roundtrip "low" arr self L))).
Defined.

(** C7: on a three-point universe, assigning a Python list of two numbers
    fails while the message is being formatted: [item.size] is read on the
    list, and the error that reaches the caller is an attribute error, with
    no expected or got length in it.  The registry is not touched. *)
Theorem setitem_short_list_attribute_error :
  let self := food [] in
  __setitem__ "low" (PyList [(1 # 2)%Q; (1 # 2)%Q]) self
  = (Raised (AttributeError "'list' object has no attribute 'size'"), self)
  /\ __setitem__ "low" (NdArray [(1 # 2)%Q; (1 # 2)%Q]) self
     = (Raised (ValueError
                  ("New membership function low must be equivalent "
                   ++ "in length to the universe variable." ++ nl
                   ++ "Expected 3, got 2.")),
        self).
Proof.
  split; reflexivity.
Qed.

(** ** The options list of __getitem__ *)

Local Open Scope string_scope.

Lemma append_nil_r (s : string) : s ++ "" = s.
Proof. induction s as [|c s IH]; simpl; congruence. Qed.

Lemma append_assoc (s1 s2 s3 : string) : (s1 ++ s2) ++ s3 = s1 ++ s2 ++ s3.
Proof. induction s1 as [|c s1 IH]; simpl; congruence. Qed.

Lemma append_length (s1 s2 : string) :
  String.length (s1 ++ s2) = (String.length s1 + String.length s2)%nat.
Proof. induction s1 as [|c s1 IH]; simpl; congruence. Qed.

Lemma options_loop (ks : list string) :
  forall (i : Z) (acc : string),
    let n := i + Z.of_nat (List.length ks) in
    fold_left (options_step (n - 1) (n - 2)) (enumerate_from i ks) acc
    = acc ++ options_text ks.
Proof.
  induction ks as [|k ks IH]; intros i acc n.
  - simpl. now rewrite append_nil_r.
  - destruct ks as [|k2 ks].
    + (* the last key *)
      subst n. simpl.
      destruct (Z.eqb_spec i (i + 1 - 2)); [lia|].
      destruct (Z.eqb_spec i (i + 1 - 1)); [|lia].
      reflexivity.
    + destruct ks as [|k3 ks].
      * (* the last two keys *)
        subst n. simpl.
        destruct (Z.eqb_spec i (i + 2 - 2)); [|lia].
        destruct (Z.eqb_spec (i + 1) (i + 2 - 2)); [lia|].
        destruct (Z.eqb_spec (i + 1) (i + 2 - 1)); [|lia].
        rewrite !append_assoc. simpl. now rewrite !append_assoc.
      * (* three keys or more *)
        specialize (IH (i + 1) (acc ++ "'" ++ k ++ "'; ")).
        cbv zeta in IH.
        replace (i + 1 + Z.of_nat (List.length (k2 :: k3 :: ks)))
          with n in IH by (subst n; simpl List.length; lia).
        change (enumerate_from i (k :: k2 :: k3 :: ks))
          with ((i, k) :: enumerate_from (i + 1) (k2 :: k3 :: ks)).
        cbn [fold_left]. unfold options_step at 2.
        destruct (Z.eqb_spec i (n - 2));
          [subst n; simpl List.length in *; lia|].
        destruct (Z.eqb_spec i (n - 1));
          [subst n; simpl List.length in *; lia|].
        rewrite IH.
        change (options_text (k :: k2 :: k3 :: ks))
          with ("'" ++ k ++ "'; " ++ options_text (k2 :: k3 :: ks)).
        now rewrite !append_assoc.
Qed.

Lemma build_options_text (d : OrderedDict.t array_like) :
  build_options d = options_text (OrderedDict.keys d).
Proof.
  unfold build_options, enumerate.
  pose proof (options_loop (OrderedDict.keys d) 0 "") as H.
  cbv zeta in H. unfold OrderedDict.keys in *.
  rewrite length_map in H. simpl in H. exact H.
Qed.

Lemma options_text_two_or_more (front : list string) (k1 k2 : string) :
  options_text (front ++ [k1; k2])%list
  = semicolon_entries front ++ "'" ++ k1 ++ "', or " ++ "'" ++ k2 ++ "'.".
Proof.
  induction front as [|k front IH]; [reflexivity|].
  change ((k :: front) ++ [k1; k2])%list with (k :: (front ++ [k1; k2])%list).
  destruct (front ++ [k1; k2])%list as [|a [|b r]] eqn:E.
  - destruct front; discriminate.
  - destruct front as [|? [|? ?]]; discriminate.
  - change (options_text (k :: a :: b :: r))
      with ("'" ++ k ++ "'; " ++ options_text (a :: b :: r)).
    rewrite IH. simpl. now rewrite !append_assoc.
Qed.

Lemma getitem_unregistered (key name : string) (self : FuzzyVariable) :
  __name__ self = Some name ->
  OrderedDict.contains key (mf self) = false ->
  __getitem__ key self
  = (Raised (ValueError
               (getitem_message key name (label self)
                  (options_text (OrderedDict.keys (mf self))))),
     self).
Proof.
  intros N C. unfold __getitem__, get_name.
  now rewrite C, N, build_options_text.
Qed.

Lemma substring_all (t : string) : substring 0 (String.length t) t = t.
Proof. induction t as [|c t IH]; simpl; congruence. Qed.

Lemma substring_skip (front t : string) :
  substring (String.length front) (String.length t) (front ++ t) = t.
Proof.
  induction front as [|c front IH]; simpl.
  - apply substring_all.
  - exact IH.
Qed.

Lemma ends_with_append (front t : string) : ends_with (front ++ t) t = true.
Proof.
  unfold ends_with. rewrite append_length.
  replace (String.length front + String.length t - String.length t)%nat
    with (String.length front) by lia.
  rewrite substring_skip. apply String.eqb_refl.
Qed.

(** C2, as the code has it: on an instance whose [__name__] is set, reading a
    label that is not registered raises a [ValueError]; its message ends with
    the registered labels in insertion order, each quoted.  With two labels
    or more, every entry but the last two is followed by "; ", the one
    before the last by ", or " and the last by "."; with one label the list
    is that label and a period; with none it is empty. *)
Theorem getitem_unregistered_message
  (key name : string) (self : FuzzyVariable) :
  __name__ self = Some name ->
  OrderedDict.contains key (mf self) = false ->
  exists options,
    __getitem__ key self
    = (Raised (ValueError (getitem_message key name (label self) options)),
       self)
    /\ (forall front k1 k2,
           OrderedDict.keys (mf self) = (front ++ [k1; k2])%list ->
           options
           = semicolon_entries front
               ++ "'" ++ k1 ++ "', or " ++ "'" ++ k2 ++ "'."
           /\ announces_last_with_or (mf self) = true)
    /\ (forall k, OrderedDict.keys (mf self) = [k] ->
                  options = "'" ++ k ++ "'.")
    /\ (OrderedDict.keys (mf self) = [] -> options = "").
Proof.
  intros N C. exists (options_text (OrderedDict.keys (mf self))).
  split; [now apply getitem_unregistered|]. split; [|split].
  - intros front k1 k2 K. rewrite K. split.
    + apply options_text_two_or_more.
    + unfold announces_last_with_or.
      rewrite build_options_text, K, rev_app_distr. simpl rev. cbn iota.
      rewrite options_text_two_or_more.
      replace (semicolon_entries front
                 ++ "'" ++ k1 ++ "', or " ++ "'" ++ k2 ++ "'.")
        with ((semicolon_entries front ++ "'" ++ k1 ++ "', ")
                ++ "or '" ++ k2 ++ "'.")
        by (repeat (progress (rewrite ?append_assoc; simpl)); reflexivity).
      apply ends_with_append.
  - intros k K. now rewrite K.
  - intros K. now rewrite K.
Qed.

Lemma getitem_unregistered_message_witness :
  let self := food [Setitem "low" (PyList [1%Q; 0%Q; 0%Q]);
                    Setitem "high" (PyList [0%Q; 0%Q; 1%Q])] in
  __name__ self = Some "Antecedent"
  /\ OrderedDict.contains "medium" (mf self) = false
  /\ exists options,
       __getitem__ "medium" self
       = (Raised (ValueError
                    (getitem_message "medium" "Antecedent" (label self)
                       options)),
          self)
       /\ options = "'low', or 'high'.".
Proof.
  intros self.
  assert (N : __name__ self = Some "Antecedent") by reflexivity.
  assert (C : OrderedDict.contains "medium" (mf self) = false)
    by reflexivity.
  split; [exact N|]. split; [exact C|].
  destruct (getitem_unregistered_message "medium" "Antecedent" self N C)
    as [options [G [Two _]]].
  exists options. split; [exact G|].
  exact (proj1 (Two [] "low" "high" eq_refl)).
Defined.

(** C2, as the claim has it, fails with one registered label: the list the
    error carries is the label and a period, with no "or" before it. *)
Lemma getitem_one_label_has_no_or :
  let self := food [Setitem "low" (PyList [1%Q; 0%Q; 0%Q])] in
  OrderedDict.keys (mf self) = ["low"]
  /\ __getitem__ "medium" self
     = (Raised (ValueError
                  ("Membership function 'medium' does not exist for "
                   ++ "Antecedent food." ++ nl
                   ++ "Available options: 'low'.")),
        self)
  /\ build_options (mf self) = "'low'."
  /\ announces_last_with_or (mf self) = false.
Proof.
  repeat split; reflexivity.
Qed.

(** ** automf with a supported number *)

Local Open Scope list_scope.

Lemma trimf_length (u abc : list Q) :
  List.length (elements (trimf u abc)) = List.length u.
Proof.
  unfold trimf.
  destruct abc as [|a [|b [|c [|d r]]]]; simpl; apply length_map.
Qed.

Lemma repopulate_fresh (pairs : list (string * list Q)) :
  forall self,
    NoDup (map fst pairs) ->
    (forall name, In name (map fst pairs) ->
                  OrderedDict.contains name (mf self) = false) ->
    repopulate pairs self
    = (Returned RNone,
       set_mf self (mf self ++ generated (universe self) pairs)).
Proof.
  induction pairs as [|[name abc] rest IH]; intros self ND Fresh.
  - simpl. rewrite app_nil_r. now destruct self.
  - cbn [repopulate].
    rewrite setitem_same_size by apply trimf_length.
    rewrite od_set_fresh by (apply Fresh; now left).
    inversion ND as [|? ? NotIn ND']; subst.
    rewrite IH; [| exact ND' |].
    + cbn [mf universe set_mf generated map fst snd].
      rewrite <- app_assoc. reflexivity.
    + intros n I. cbn [mf set_mf]. rewrite od_contains_app.
      rewrite (Fresh n) by (now right). simpl.
      destruct (String.eqb_spec n name) as [->|_]; [|reflexivity].
      now elim NotIn.
Qed.

Lemma automf_names_invert (number : Z) (variable_type : string) :
  automf_names number variable_type true
  = rev (automf_names number variable_type false).
Proof. reflexivity. Qed.

Lemma automf_names_facts (number : Z) (variable_type : string)
  (invert : bool) :
  supported number ->
  NoDup (automf_names number variable_type invert)
  /\ List.length (automf_names number variable_type invert) = Z.to_nat number
  /\ In "average" (automf_names number variable_type invert).
Proof.
  intros S. unfold automf_names.
  destruct (String.eqb (lower variable_type) "quality"), invert;
    destruct S as [->|[->| ->]]; vm_compute;
    (split; [|split; [reflexivity | tauto]]);
    repeat (constructor; [simpl; intuition discriminate|]); constructor.
Qed.

Lemma set_last_length {A : Type} (l : list A) (v : A) :
  List.length (set_last l v) = List.length l.
Proof.
  induction l as [|x [|y l] IH]; simpl in *; auto.
Qed.

Lemma linspace_length (start stop : Q) (num : Z) :
  List.length (linspace start stop num) = Z.to_nat num.
Proof.
  unfold linspace.
  destruct (1 <? num)%Z; rewrite ?set_last_length, length_map, length_seq;
    reflexivity.
Qed.

Lemma automf_widths_length (lo hi : Q) (number : Z) :
  List.length (automf_widths lo hi number) = Z.to_nat number.
Proof. unfold automf_widths, list_mul. apply repeat_length. Qed.

Lemma combine_repeat {A B : Type} (l : list A) (w : B) (n : nat) :
  List.length l = n ->
  combine l (repeat w n) = map (fun c => (c, w)) l.
Proof.
  revert n. induction l as [|x l IH]; intros n L; simpl in *.
  - reflexivity.
  - destruct n as [|n]; [discriminate|]. simpl. f_equal. apply IH. lia.
Qed.

Lemma automf_abcs_centers (lo hi : Q) (number : Z) :
  automf_abcs lo hi number
  = map (fun c =>
           let w := automf_width lo hi number in
           [(c - w / 2)%Q; c; (c + w / 2)%Q])
        (automf_centers lo hi number).
Proof.
  unfold automf_abcs, zip, automf_widths, list_mul.
  rewrite combine_repeat
    by (unfold automf_centers; apply linspace_length).
  rewrite map_map. reflexivity.
Qed.

Lemma automf_abcs_length (lo hi : Q) (number : Z) :
  List.length (automf_abcs lo hi number) = Z.to_nat number.
Proof.
  rewrite automf_abcs_centers, length_map.
  unfold automf_centers. apply linspace_length.
Qed.

Lemma map_fst_combine {A B : Type} (l1 : list A) (l2 : list B) :
  List.length l1 = List.length l2 -> map fst (combine l1 l2) = l1.
Proof.
  revert l2. induction l1 as [|x l1 IH]; intros [|y l2] L; simpl in *;
    try discriminate; auto.
  f_equal. apply IH. lia.
Qed.

Lemma map_snd_combine {A B : Type} (l1 : list A) (l2 : list B) :
  List.length l1 = List.length l2 -> map snd (combine l1 l2) = l2.
Proof.
  revert l2. induction l1 as [|x l1 IH]; intros [|y l2] L; simpl in *;
    try discriminate; auto.
  f_equal. apply IH. lia.
Qed.

Lemma automf_supported (number : Z) (variable_type : string) (invert : bool)
  (self : FuzzyVariable) (name : string) (lo hi : Q) :
  supported number ->
  __name__ self = Some name ->
  ndarray_min (universe self) = Returned lo ->
  ndarray_max (universe self) = Returned hi ->
  automf number variable_type invert self
  = (Returned RNone,
     after_automf self name (automf_names number variable_type invert)
       (automf_abcs lo hi number)).
Proof.
  intros S N Lo Hi. unfold automf.
  replace (negb (number =? 3)%Z && negb (number =? 5)%Z
           && negb (number =? 7)%Z) with false
    by (destruct S as [->|[->| ->]]; reflexivity).
  rewrite Lo, Hi. unfold get_name. cbn [__name__ set_mf]. rewrite N.
  destruct (automf_names_facts number variable_type invert S) as [ND [L _]].
  rewrite repopulate_fresh.
  - unfold after_automf.
    destruct (String.eqb name "Antecedent"); unfold set_mf, set_output;
      simpl; rewrite N; reflexivity.
  - unfold zip. rewrite map_fst_combine; [exact ND|].
    now rewrite L, automf_abcs_length.
  - intros n _. now destruct (String.eqb name "Antecedent").
Qed.

Lemma after_automf_keys (self : FuzzyVariable) (name : string)
  (names : list string) (abcs : list (list Q)) :
  List.length names = List.length abcs ->
  OrderedDict.keys (mf (after_automf self name names abcs)) = names.
Proof.
  intros L. unfold OrderedDict.keys, after_automf, generated, zip. simpl.
  rewrite map_map. simpl.
  now rewrite <- (map_fst_combine names abcs L) at 2.
Qed.

Lemma after_automf_values (self : FuzzyVariable) (name : string)
  (names : list string) (abcs : list (list Q)) :
  List.length names = List.length abcs ->
  OrderedDict.values (mf (after_automf self name names abcs))
  = map (trimf (universe self)) abcs.
Proof.
  intros L. unfold OrderedDict.values, after_automf, generated, zip. simpl.
  rewrite map_map. simpl.
  rewrite <- (map_snd_combine names abcs L) at 2.
  now rewrite map_map.
Qed.

(** ** The limits of the universe *)

Lemma fold_qmin_least (xs : list Q) :
  forall a,
    (fold_left qmin xs a <= a)%Q
    /\ Forall (fun x => (fold_left qmin xs a <= x)%Q) xs
    /\ In (fold_left qmin xs a) (a :: xs).
Proof.
  induction xs as [|x xs IH]; intros a; simpl.
  - split; [apply Qle_refl|]. split; [constructor | now left].
  - destruct (IH (qmin a x)) as [Le [All Mem]].
    assert (Ha : (qmin a x <= a)%Q /\ (qmin a x <= x)%Q).
    { unfold qmin. destruct (Qle_bool a x) eqn:E.
      - apply Qle_bool_iff in E. split; [apply Qle_refl | exact E].
      - split; [|apply Qle_refl].
        apply Qlt_le_weak, Qnot_le_lt. intros C.
        apply Qle_bool_iff in C. congruence. }
    destruct Ha as [Ha Hx].
    split; [eapply Qle_trans; eassumption|]. split.
    + constructor; [eapply Qle_trans; eassumption | exact All].
    + simpl in Mem. destruct Mem as [E|I]; [|now right; right].
      rewrite <- E. unfold qmin. destruct (Qle_bool a x); auto.
Qed.

Lemma fold_qmax_greatest (xs : list Q) :
  forall a,
    (a <= fold_left qmax xs a)%Q
    /\ Forall (fun x => (x <= fold_left qmax xs a)%Q) xs
    /\ In (fold_left qmax xs a) (a :: xs).
Proof.
  induction xs as [|x xs IH]; intros a; simpl.
  - split; [apply Qle_refl|]. split; [constructor | now left].
  - destruct (IH (qmax a x)) as [Le [All Mem]].
    assert (Ha : (a <= qmax a x)%Q /\ (x <= qmax a x)%Q).
    { unfold qmax. destruct (Qle_bool a x) eqn:E.
      - apply Qle_bool_iff in E. split; [exact E | apply Qle_refl].
      - split; [apply Qle_refl|].
        apply Qlt_le_weak, Qnot_le_lt. intros C.
        apply Qle_bool_iff in C. congruence. }
    destruct Ha as [Ha Hx].
    split; [eapply Qle_trans; eassumption|]. split.
    + constructor; [eapply Qle_trans; eassumption | exact All].
    + simpl in Mem. destruct Mem as [E|I]; [|now right; right].
      rewrite <- E. unfold qmax. destruct (Qle_bool a x); auto.
Qed.

Lemma ndarray_min_least (u : list Q) (lo : Q) :
  ndarray_min u = Returned lo ->
  In lo u /\ Forall (fun x => (lo <= x)%Q) u.
Proof.
  destruct u as [|a xs]; simpl; [discriminate|].
  intros E. injection E as <-.
  destruct (fold_qmin_least xs a) as [Le [All Mem]].
  split; [exact Mem | now constructor].
Qed.

Lemma ndarray_max_greatest (u : list Q) (hi : Q) :
  ndarray_max u = Returned hi ->
  In hi u /\ Forall (fun x => (x <= hi)%Q) u.
Proof.
  destruct u as [|a xs]; simpl; [discriminate|].
  intros E. injection E as <-.
  destruct (fold_qmax_greatest xs a) as [Le [All Mem]].
  split; [exact Mem | now constructor].
Qed.

Lemma ndarray_limits (u : list Q) :
  u <> [] ->
  exists lo hi,
    ndarray_min u = Returned lo /\ ndarray_max u = Returned hi.
Proof.
  destruct u as [|a xs]; [congruence|]. intros _. simpl. eauto.
Qed.

(** C8: for a supported [number], on an instance with a name and a
    non-empty universe, [automf] with [invert=True] and with [invert=False]
    both succeed and leave the same arrays in the same positions of the
    registry, built from the same breakpoints; the labels of the one are the
    labels of the other in reverse order. *)
Theorem automf_invert_reverses_names_only
  (number : Z) (variable_type : string) (self : FuzzyVariable)
  (name : string) :
  supported number ->
  __name__ self = Some name ->
  universe self <> [] ->
  let plain := automf number variable_type false self in
  let inverted := automf number variable_type true self in
  fst plain = Returned RNone
  /\ fst inverted = Returned RNone
  /\ OrderedDict.values (mf (snd inverted))
     = OrderedDict.values (mf (snd plain))
  /\ OrderedDict.keys (mf (snd inverted))
     = rev (OrderedDict.keys (mf (snd plain)))
  /\ List.length (OrderedDict.values (mf (snd plain))) = Z.to_nat number.
Proof.
  intros S N U plain inverted.
  destruct (ndarray_limits (universe self) U) as [lo [hi [Lo Hi]]].
  unfold plain, inverted.
  rewrite !(automf_supported number variable_type _ self name lo hi S N Lo Hi).
  cbn [fst snd].
  assert (L : forall invert,
             List.length (automf_names number variable_type invert)
             = List.length (automf_abcs lo hi number)).
  { intros invert.
    destruct (automf_names_facts number variable_type invert S) as [_ [L _]].
    now rewrite L, automf_abcs_length. }
  rewrite !after_automf_values, !after_automf_keys by apply L.
  repeat split.
  now rewrite length_map, automf_abcs_length.
Qed.

Lemma automf_invert_reverses_names_only_witness :
  let self := food [] in
  supported 3
  /\ __name__ self = Some "Antecedent"
  /\ universe self <> []
  /\ OrderedDict.keys (mf (snd (automf 3 "quality" true self)))
     = rev (OrderedDict.keys (mf (snd (automf 3 "quality" false self)))).
Proof.
  intros self.
  assert (S : supported 3) by (left; reflexivity).
  assert (N : __name__ self = Some "Antecedent") by reflexivity.
  assert (U : universe self <> []) by discriminate.
  split; [exact S|]. split; [exact N|]. split; [exact U|].
  exact (proj1 (proj2 (proj2 (proj2
    (automf_invert_reverses_names_only 3 "quality" self "Antecedent"
       S N U))))).
Defined.

(** ** Centers, width and breakpoints *)

(** Unfold [linspace] at a literal count. *)
Ltac linspace_at n :=
  unfold automf_centers, linspace;
  replace (1 <? n)%Z with true by reflexivity;
  let k := eval vm_compute in (Z.to_nat n) in
  change (Z.to_nat n) with k in *;
  let d := eval vm_compute in (inject_Z (n - 1)) in
  change (inject_Z (n - 1)) with d;
  cbn [seq map set_last].

Ltac q_literals :=
  cbn [nth hd last Z.of_nat Pos.of_succ_nat Pos.succ inject_Z].

Lemma automf_centers_spaced (lo hi : Q) (number : Z) :
  supported number ->
  forall i, (i < Z.to_nat number)%nat ->
    (nth i (automf_centers lo hi number) 0
     == lo + inject_Z (Z.of_nat i) * ((hi - lo) / (inject_Z number - 1)))%Q.
Proof.
  intros S i Hi.
  destruct S as [->|[->| ->]];
    [linspace_at 3 | linspace_at 5 | linspace_at 7];
    destruct i as [|[|[|[|[|[|[|i]]]]]]]; try lia; q_literals; field.
Qed.

Lemma automf_centers_ends (lo hi : Q) (number : Z) :
  supported number ->
  (hd 0 (automf_centers lo hi number) == lo)%Q
  /\ last (automf_centers lo hi number) 0%Q = hi.
Proof.
  intros S.
  destruct S as [->|[->| ->]];
    [linspace_at 3 | linspace_at 5 | linspace_at 7];
    q_literals; (split; [field | reflexivity]).
Qed.

Lemma automf_width_positive (lo hi : Q) (number : Z) :
  supported number -> (lo < hi)%Q -> (0 < automf_width lo hi number / 2)%Q.
Proof.
  intros S Lt. unfold automf_width.
  assert (P : (0 < hi - lo)%Q) by lra.
  destruct S as [->|[->| ->]]; cbn [inject_Z].
  - setoid_replace ((hi - lo) / ((3 - 1) / 2) / 2)%Q
      with ((hi - lo) * (1 # 2))%Q by field. lra.
  - setoid_replace ((hi - lo) / ((5 - 1) / 2) / 2)%Q
      with ((hi - lo) * (1 # 4))%Q by field. lra.
  - setoid_replace ((hi - lo) / ((7 - 1) / 2) / 2)%Q
      with ((hi - lo) * (1 # 6))%Q by field. lra.
Qed.

(** C9: for a supported [number], with [lo] and [hi] the least and the
    greatest point of the universe, [automf] takes [number] centers, the
    i-th at [lo + i * (hi - lo) / (number - 1)], so the first at [lo] and the
    last at [hi]; one width [(hi - lo) / ((number - 1) / 2)] for all of
    them; and stores for each center [c] the triangle of breakpoints
    [c - width/2, c, c + width/2].  The breakpoints are used as computed:
    when [lo < hi] the first triangle starts below [lo] and the last one
    ends above [hi]. *)
Theorem automf_centers_width_breakpoints
  (number : Z) (variable_type : string) (invert : bool)
  (self : FuzzyVariable) (name : string) (lo hi : Q) :
  supported number ->
  __name__ self = Some name ->
  ndarray_min (universe self) = Returned lo ->
  ndarray_max (universe self) = Returned hi ->
  let centers := automf_centers lo hi number in
  let width := ((hi - lo) / ((inject_Z number - 1) / 2))%Q in
  (In lo (universe self) /\ Forall (fun x => (lo <= x)%Q) (universe self))
  /\ (In hi (universe self) /\ Forall (fun x => (x <= hi)%Q) (universe self))
  /\ List.length centers = Z.to_nat number
  /\ (forall i, (i < Z.to_nat number)%nat ->
        (nth i centers 0
         == lo + inject_Z (Z.of_nat i)
                 * ((hi - lo) / (inject_Z number - 1)))%Q)
  /\ (hd 0 centers == lo)%Q
  /\ last centers 0%Q = hi
  /\ fst (automf number variable_type invert self) = Returned RNone
  /\ OrderedDict.values (mf (snd (automf number variable_type invert self)))
     = map (fun c =>
              trimf (universe self)
                [(c - width / 2)%Q; c; (c + width / 2)%Q])
           centers
  /\ ((lo < hi)%Q ->
      (hd 0 centers - width / 2 < lo)%Q
      /\ (hi < last centers 0 + width / 2)%Q).
Proof.
  intros S N Lo Hi centers width.
  destruct (automf_centers_ends lo hi number S) as [First Last].
  split; [now apply ndarray_min_least|].
  split; [now apply ndarray_max_greatest|].
  split; [apply linspace_length|].
  split; [now apply automf_centers_spaced|].
  split; [exact First|]. split; [exact Last|].
  rewrite (automf_supported number variable_type invert self name lo hi
             S N Lo Hi).
  cbn [fst snd]. split; [reflexivity|]. split.
  - rewrite after_automf_values.
    + rewrite automf_abcs_centers, map_map. reflexivity.
    + destruct (automf_names_facts number variable_type invert S)
        as [_ [L _]].
      now rewrite L, automf_abcs_length.
  - intros Lt.
    pose proof (automf_width_positive lo hi number S Lt) as P.
    unfold automf_width in P. fold width in P.
    fold centers in First, Last. rewrite Last.
    split; [rewrite First|]; lra.
Qed.

Lemma automf_centers_width_breakpoints_witness :
  let self := food [] in
  supported 3
  /\ __name__ self = Some "Antecedent"
  /\ ndarray_min (universe self) = Returned 0%Q
  /\ ndarray_max (universe self) = Returned 2%Q
  /\ OrderedDict.values (mf (snd (automf 3 "quant" false self)))
     = map (fun c =>
              trimf (universe self)
                [(c - (2 - 0) / ((inject_Z 3 - 1) / 2) / 2)%Q; c;
                 (c + (2 - 0) / ((inject_Z 3 - 1) / 2) / 2)%Q])
           (automf_centers 0 2 3).
Proof.
  intros self.
  assert (S : supported 3) by (left; reflexivity).
  assert (N : __name__ self = Some "Antecedent") by reflexivity.
  assert (Lo : ndarray_min (universe self) = Returned 0%Q) by reflexivity.
  assert (Hi : ndarray_max (universe self) = Returned 2%Q) by reflexivity.
  split; [exact S|]. split; [exact N|]. split; [exact Lo|].
  split; [exact Hi|].
  pose proof (automf_centers_width_breakpoints 3 "quant" false self
                "Antecedent" 0%Q 2%Q S N Lo Hi) as T.
  cbv zeta in T.
  exact (proj1 (proj2 (proj2 (proj2 (proj2 (proj2 (proj2 (proj2 T)))))))).
Defined.

(** ** The scenario of the eleven-point universe *)

(** C3, as the code has it: over [linspace(0, 10, 11)], on an instance with
    a name, [automf(3, "quality")] fills the registry with the labels
    "poor", "average", "good", in that order; each holds an eleven-element
    triangular array, and the three peak at the universe points 0, 5 and
    10. *)
Theorem automf_3_quality_scenario
  (name : string) (addr : Z) (lbl : option string) :
  let self := init_named name addr u_0_10 lbl in
  let self' := snd (automf 3 "quality" false self) in
  fst (automf 3 "quality" false self) = Returned RNone
  /\ OrderedDict.keys (mf self') = ["poor"; "average"; "good"]
  /\ reduced (mf self')
     = [("poor",
         [1; 4 # 5; 3 # 5; 2 # 5; 1 # 5; 0; 0; 0; 0; 0; 0]%Q);
        ("average",
         [0; 1 # 5; 2 # 5; 3 # 5; 4 # 5; 1; 4 # 5; 3 # 5; 2 # 5; 1 # 5; 0]%Q);
        ("good",
         [0; 0; 0; 0; 0; 0; 1 # 5; 2 # 5; 3 # 5; 4 # 5; 1]%Q)]
  /\ map (fun kv => map Qred (peak_points (universe self') (snd kv)))
         (mf self')
     = [[0%Q]; [5%Q]; [10%Q]]
  /\ Forall (fun kv => List.length (elements (snd kv)) = 11%nat) (mf self').
Proof.
  intros self self'.
  assert (S : supported 3) by (left; reflexivity).
  assert (N : __name__ self = Some name) by reflexivity.
  pose proof (automf_supported 3 "quality" false self name _ _ S N
                eq_refl eq_refl) as A.
  unfold self'. rewrite A. cbn [fst snd].
  split; [reflexivity|]. split; [reflexivity|].
  split; [vm_compute; reflexivity|].
  split; [vm_compute; reflexivity|].
  repeat constructor.
Qed.

(** C3, as the claim has it, fails on its third label: the slice
    [names[1:6:2]] takes the names at positions 1, 3 and 5, and "decent" is
    at position 4. *)
Lemma automf_3_quality_has_no_decent :
  let self := init_named "Antecedent" 0 u_0_10 (Some "service") in
  let self' := snd (automf 3 "quality" false self) in
  slice quality_names 1 6 2 = ["poor"; "average"; "good"]
  /\ OrderedDict.keys (mf self') <> ["poor"; "average"; "decent"]
  /\ OrderedDict.contains "decent" (mf self') = false.
Proof.
  split; [reflexivity|]. split; [|vm_compute; reflexivity].
  vm_compute. intros H. discriminate H.
Qed.

(** ** What the registry holds after any calls *)

Lemma trimf_at_within_unit (a b c x : Q) :
  (0 <= trimf_at a b c x)%Q /\ (trimf_at a b c x <= 1)%Q.
Proof.
  unfold trimf_at.
  destruct (Qeq_bool x b) eqn:Eb; [split; lra|].
  apply Qeq_bool_neq in Eb.
  destruct (Qle_bool x a) eqn:Ea; [simpl; split; lra|].
  destruct (Qle_bool c x) eqn:Ec; [simpl; split; lra|].
  simpl.
  assert (Ha : (a < x)%Q).
  { apply Qnot_le_lt. intros C. apply Qle_bool_iff in C. congruence. }
  assert (Hc : (x < c)%Q).
  { apply Qnot_le_lt. intros C. apply Qle_bool_iff in C. congruence. }
  destruct (Qle_bool x b) eqn:Exb.
  - apply Qle_bool_iff in Exb.
    assert (P : (0 < b - a)%Q) by lra.
    split; [apply Qle_shift_div_l | apply Qle_shift_div_r]; lra.
  - assert (Hb : (b < x)%Q).
    { apply Qnot_le_lt. intros C. apply Qle_bool_iff in C. congruence. }
    assert (P : (0 < c - b)%Q) by lra.
    split; [apply Qle_shift_div_l | apply Qle_shift_div_r]; lra.
Qed.

Lemma trimf_within_unit (u abc : list Q) :
  within_unit (elements (trimf u abc)).
Proof.
  unfold within_unit, trimf.
  destruct abc as [|a [|b [|c [|d r]]]]; simpl; apply Forall_forall;
    intros y I; apply in_map_iff in I; destruct I as [x [<- _]];
    try (split; lra).
  apply trimf_at_within_unit.
Qed.

Section RegistryInvariant.

(** A property of the stored numbers that every generated triangle has. *)
Variable P : list Q -> Prop.
Hypothesis P_trimf : forall u abc, P (elements (trimf u abc)).

Lemma od_set_ok (u : list Q) (k : string) (v : array_like)
  (d : OrderedDict.t array_like) :
  Forall (entry_ok P u) d -> entry_ok P u (k, v) ->
  Forall (entry_ok P u) (OrderedDict.set k v d).
Proof.
  intros D V. induction D as [|[k' v'] d H D IH]; simpl.
  - constructor; [exact V | constructor].
  - destruct (String.eqb k k'); constructor; auto.
Qed.

Lemma setitem_ok (key : string) (item : array_like)
  (self : FuzzyVariable) :
  registry_ok P self -> P (elements item) ->
  registry_ok P (snd (__setitem__ key item self)).
Proof.
  intros R I. unfold __setitem__, ndarray_size. simpl.
  destruct (Z.eqb_spec (Z.of_nat (List.length (elements item)))
              (Z.of_nat (List.length (universe self)))) as [E|_]; simpl.
  - apply od_set_ok; [exact R|]. split; [simpl; lia | exact I].
  - destruct (attr_size item); exact R.
Qed.

Lemma repopulate_ok (pairs : list (string * list Q)) :
  forall self,
    registry_ok P self -> registry_ok P (snd (repopulate pairs self)).
Proof.
  induction pairs as [|[name abc] rest IH]; intros self R; simpl.
  - exact R.
  - pose proof (setitem_ok name (trimf (universe self) abc) self R
                  (P_trimf _ _)) as R'.
    destruct (__setitem__ name (trimf (universe self) abc) self)
      as [[r|e] s']; simpl in *; auto.
Qed.

Lemma automf_ok (number : Z) (variable_type : string) (invert : bool)
  (self : FuzzyVariable) :
  registry_ok P self ->
  registry_ok P (snd (automf number variable_type invert self)).
Proof.
  intros R. unfold automf.
  destruct (negb (number =? 3)%Z && negb (number =? 5)%Z
            && negb (number =? 7)%Z); [exact R|].
  destruct (ndarray_min (universe self)); [|exact R].
  destruct (ndarray_max (universe self)); [|exact R].
  destruct (get_name (set_mf self OrderedDict.empty)) as [n|e];
    [|constructor].
  apply repopulate_ok.
  destruct (String.eqb n "Antecedent"); constructor.
Qed.

Lemma run_call_ok (c : call) (self : FuzzyVariable) :
  registry_ok P self -> call_ok P c -> registry_ok P (snd (run_call c self)).
Proof.
  intros R C. destruct c; simpl in *.
  - destruct (getitem_frame key self) as [U [_ Mf]].
    unfold registry_ok. now rewrite U, Mf.
  - now apply setitem_ok.
  - now apply automf_ok.
Qed.

Lemma run_calls_ok (cs : list call) :
  forall self,
    registry_ok P self -> Forall (call_ok P) cs ->
    registry_ok P (run_calls cs self).
Proof.
  induction cs as [|c cs IH]; intros self R C; simpl; [exact R|].
  inversion C; subst. apply IH; [now apply run_call_ok | assumption].
Qed.

End RegistryInvariant.

(** C5, as the code has it: after any sequence of calls on a new instance,
    every array in the registry has the length of the universe; and every
    stored number lies in [[0, 1]] provided each indexed write of the
    sequence assigned numbers in [[0, 1]] (the arrays [automf] generates
    always do). *)
Theorem registry_after_calls
  (name : option string) (addr : Z) (u : array_like) (lbl : option string)
  (cs : list call) :
  let self := run_calls cs (construct name addr u lbl) in
  lengths_match self
  /\ (writes_within_unit cs -> lengths_and_degrees self).
Proof.
  intros self.
  assert (E : forall P, registry_ok P (construct name addr u lbl))
    by (intros P; destruct name; constructor).
  split.
  - apply run_calls_ok; [auto | apply E |].
    apply Forall_forall. intros c _. now destruct c.
  - intros W. apply run_calls_ok;
      [apply trimf_within_unit | apply E | exact W].
Qed.

Lemma registry_after_calls_witness :
  let cs := [Setitem "low" (PyList [1%Q; (1 # 2)%Q; 0%Q]);
             Automf 3 "quant" false;
             Setitem "peak" (NdArray [0%Q; 1%Q; 0%Q])] in
  let self :=
    run_calls cs
      (construct (Some "Antecedent") 0 (PyList [0%Q; 1%Q; 2%Q])
         (Some "food")) in
  writes_within_unit cs
  /\ OrderedDict.keys (mf self) = ["lower"; "average"; "higher"; "peak"]
  /\ lengths_and_degrees self.
Proof.
  intros cs self.
  assert (W : writes_within_unit cs).
  { unfold writes_within_unit, cs, call_ok, within_unit.
    repeat constructor; simpl; unfold Qle; simpl; lia. }
  split; [exact W|]. split; [reflexivity|].
  exact (proj2 (registry_after_calls (Some "Antecedent") 0
                  (PyList [0%Q; 1%Q; 2%Q]) (Some "food") cs) W).
Defined.

(** C5, as the claim has it, fails after one indexed write: the write checks
    the length of what it stores, not its range. *)
Lemma setitem_stores_degrees_above_one :
  let self :=
    run_calls [Setitem "low" (PyList [2%Q; 0%Q; 0%Q])]
      (construct None 0 (PyList [0%Q; 1%Q; 2%Q]) (Some "food")) in
  mf self = [("low", PyList [2%Q; 0%Q; 0%Q])]
  /\ ~ lengths_and_degrees self.
Proof.
  split; [reflexivity|].
  intros H. inversion H as [|kv d [_ W] _]; subst.
  inversion W as [|y ys [_ Le] _]; subst.
  unfold Qle in Le. simpl in Le. lia.
Qed.

(** * Further properties of the class *)

(** ** Assignment in the registry *)

Lemma od_contains_set {V : Type} (k : string) (v : V) (d : OrderedDict.t V) :
  OrderedDict.contains k (OrderedDict.set k v d) = true.
Proof.
  induction d as [|[k' v'] d IH]; simpl.
  - now rewrite String.eqb_refl.
  - destruct (String.eqb k k') eqn:E; simpl; rewrite E; auto.
Qed.

Lemma od_keys_set {V : Type} (k : string) (v : V) (d : OrderedDict.t V) :
  OrderedDict.keys (OrderedDict.set k v d)
  = if OrderedDict.contains k d then OrderedDict.keys d
    else OrderedDict.keys d ++ [k].
Proof.
  unfold OrderedDict.keys.
  induction d as [|[k' v'] d IH]; simpl; [reflexivity|].
  destruct (String.eqb k k') eqn:E; simpl; [reflexivity|].
  rewrite IH. now destruct (OrderedDict.contains k d).
Qed.

Lemma od_get_set_other {V : Type} (k k' : string) (v : V)
  (d : OrderedDict.t V) :
  k' <> k ->
  OrderedDict.get k' (OrderedDict.set k v d) = OrderedDict.get k' d.
Proof.
  intros N. induction d as [|[k0 v0] d IH]; simpl.
  - now rewrite (proj2 (String.eqb_neq k' k) N).
  - destruct (String.eqb_spec k k0) as [<-|Nk]; simpl.
    + now rewrite (proj2 (String.eqb_neq k' k) N).
    + now rewrite IH.
Qed.

Lemma od_length_set {V : Type} (k : string) (v : V) (d : OrderedDict.t V) :
  List.length (OrderedDict.set k v d)
  = if OrderedDict.contains k d then List.length d
    else S (List.length d).
Proof.
  induction d as [|[k' v'] d IH]; simpl; [reflexivity|].
  destruct (String.eqb k k'); simpl; [reflexivity|].
  rewrite IH. now destruct (OrderedDict.contains k d).
Qed.

(** X1: after a write that succeeded, an indexed read of the same label
    returns the variable itself, makes that label the active one and leaves
    the registry as the write left it. *)
Theorem write_then_read_activates
  (key : string) (arr : array_like) (self : FuzzyVariable) :
  List.length (elements arr) = List.length (universe self) ->
  let written := snd (__setitem__ key arr self) in
  __getitem__ key written = (Returned RSelf, set_active written (Some key))
  /\ active (snd (__getitem__ key written)) = Some key
  /\ mf (snd (__getitem__ key written))
     = OrderedDict.set key arr (mf self).
Proof.
  intros L written. unfold written.
  rewrite (setitem_same_size key arr self L). cbn [snd].
  unfold __getitem__. cbn [mf set_mf]. rewrite od_contains_set.
  repeat split.
Qed.

Lemma write_then_read_activates_witness :
  let self := food [Setitem "low" (PyList [1%Q; 0%Q; 0%Q])] in
  let arr := NdArray [0%Q; 0%Q; 1%Q] in
  List.length (elements arr) = List.length (universe self)
  /\ active (snd (__getitem__ "high" (snd (__setitem__ "high" arr self))))
     = Some "high".
Proof.
  intros self arr.
  assert (L : List.length (elements arr) = List.length (universe self))
    by reflexivity.
  split; [exact L|].
  exact (proj1 (proj2 (write_then_read_activates "high" arr self L))).
Defined.

(** X2: a write that succeeds keeps the order of the labels: a label that
    was registered stays where it was and the registry keeps its size; a new
    label goes last and the registry grows by one. *)
Theorem write_keeps_label_order
  (key : string) (arr : array_like) (self : FuzzyVariable) :
  List.length (elements arr) = List.length (universe self) ->
  let self' := snd (__setitem__ key arr self) in
  (OrderedDict.contains key (mf self) = true ->
   OrderedDict.keys (mf self') = OrderedDict.keys (mf self)
   /\ List.length (mf self') = List.length (mf self))
  /\ (OrderedDict.contains key (mf self) = false ->
      OrderedDict.keys (mf self') = OrderedDict.keys (mf self) ++ [key]
      /\ List.length (mf self') = S (List.length (mf self))).
Proof.
  intros L self'. unfold self'.
  rewrite (setitem_same_size key arr self L). cbn [snd mf set_mf].
  rewrite od_keys_set, od_length_set.
  split; intros C; rewrite C; split; reflexivity.
Qed.

Lemma write_keeps_label_order_witness :
  let self := food [Setitem "low" (PyList [1%Q; 0%Q; 0%Q]);
                    Setitem "high" (PyList [0%Q; 0%Q; 1%Q])] in
  let arr := NdArray [1%Q; (1 # 2)%Q; 0%Q] in
  List.length (elements arr) = List.length (universe self)
  /\ OrderedDict.contains "low" (mf self) = true
  /\ OrderedDict.keys (mf (snd (__setitem__ "low" arr self)))
     = ["low"; "high"].
Proof.
  intros self arr.
  assert (L : List.length (elements arr) = List.length (universe self))
    by reflexivity.
  assert (C : OrderedDict.contains "low" (mf self) = true) by reflexivity.
  split; [exact L|]. split; [exact C|].
  exact (proj1 (proj1 (write_keeps_label_order "low" arr self L) C)).
Defined.

(** X3: a write under one label, whether it succeeds or raises, leaves what
    every other label holds as it was. *)
Theorem write_leaves_other_labels
  (key other : string) (item : array_like) (self : FuzzyVariable) :
  other <> key ->
  OrderedDict.get other (mf (snd (__setitem__ key item self)))
  = OrderedDict.get other (mf self).
Proof.
  intros N. unfold __setitem__.
  destruct (negb _); [destruct (attr_size item); reflexivity|].
  cbn [snd mf set_mf]. now apply od_get_set_other.
Qed.

Lemma write_leaves_other_labels_witness :
  let self := food [Setitem "low" (PyList [1%Q; 0%Q; 0%Q])] in
  "low" <> "high"
  /\ OrderedDict.get "low"
       (mf (snd (__setitem__ "high" (NdArray [0%Q; 0%Q; 1%Q]) self)))
     = Some (PyList [1%Q; 0%Q; 0%Q]).
Proof.
  intros self.
  assert (N : "low" <> "high") by discriminate.
  split; [exact N|].
  exact (write_leaves_other_labels "high" "low" (NdArray [0%Q; 0%Q; 1%Q])
           self N).
Defined.

(** X4: assigning an ndarray whose size is not the universe's raises a
    [ValueError] whose message names the label and states the universe's
    size as expected and the array's size as got; the instance is not
    changed. *)
Theorem write_wrong_size_ndarray
  (key : string) (xs : list Q) (self : FuzzyVariable) :
  List.length xs <> List.length (universe self) ->
  __setitem__ key (NdArray xs) self
  = (Raised (ValueError
               ("New membership function " ++ key
                ++ " must be equivalent in length to the universe variable."
                ++ nl ++ "Expected "
                ++ str_int (Z.of_nat (List.length (universe self)))
                ++ ", got " ++ str_int (Z.of_nat (List.length xs))
                ++ ".")%string),
     self).
Proof.
  intros L. rewrite (setitem_other_size_ndarray key xs self L).
  reflexivity.
Qed.

Lemma write_wrong_size_ndarray_witness :
  let self := food [] in
  List.length [0%Q; 1%Q; 0%Q; 1%Q] <> List.length (universe self)
  /\ __setitem__ "low" (NdArray [0%Q; 1%Q; 0%Q; 1%Q]) self
     = (Raised (ValueError
                  ("New membership function low must be equivalent in "
                   ++ "length to the universe variable." ++ nl
                   ++ "Expected 3, got 4.")%string),
        self).
Proof.
  intros self.
  assert (L : List.length [0%Q; 1%Q; 0%Q; 1%Q]
              <> List.length (universe self)) by discriminate.
  split; [exact L|].
  exact (write_wrong_size_ndarray "low" [0%Q; 1%Q; 0%Q; 1%Q] self L).
Defined.

(** X5: an indexed read or write that raises, whatever the error, leaves the
    instance exactly as it was. *)
Theorem raising_access_leaves_instance
  (key : string) (item : array_like) (self : FuzzyVariable) (e : exn) :
  (fst (__getitem__ key self) = Raised e ->
   snd (__getitem__ key self) = self)
  /\ (fst (__setitem__ key item self) = Raised e ->
      snd (__setitem__ key item self) = self).
Proof.
  split.
  - unfold __getitem__.
    destruct (OrderedDict.contains key (mf self)); [discriminate|].
    now destruct (get_name self).
  - unfold __setitem__.
    destruct (negb _); [now destruct (attr_size item) | discriminate].
Qed.

Lemma raising_access_leaves_instance_witness :
  let self := food [Setitem "low" (PyList [1%Q; 0%Q; 0%Q])] in
  let e := AttributeError "'list' object has no attribute 'size'" in
  fst (__setitem__ "high" (PyList [1%Q]) self) = Raised e
  /\ snd (__setitem__ "high" (PyList [1%Q]) self) = self.
Proof.
  intros self e.
  assert (F : fst (__setitem__ "high" (PyList [1%Q]) self) = Raised e)
    by reflexivity.
  split; [exact F|].
  exact (proj2 (raising_access_leaves_instance "high" (PyList [1%Q]) self e)
           F).
Defined.

(** ** What automf leaves, case by case *)

Lemma set_mf_same (self : FuzzyVariable) : set_mf self (mf self) = self.
Proof. now destruct self. Qed.

Lemma setitem_only_mf (key : string) (item : array_like)
  (self : FuzzyVariable) :
  snd (__setitem__ key item self)
  = set_mf self (mf (snd (__setitem__ key item self))).
Proof.
  unfold __setitem__.
  destruct (negb _); [destruct (attr_size item)|]; cbn [snd];
    now rewrite ?set_mf_same.
Qed.

Lemma repopulate_only_mf (pairs : list (string * list Q)) :
  forall self,
    snd (repopulate pairs self)
    = set_mf self (mf (snd (repopulate pairs self))).
Proof.
  induction pairs as [|[name abc] rest IH]; intros self; simpl.
  - now rewrite set_mf_same.
  - pose proof (setitem_only_mf name (trimf (universe self) abc) self) as F.
    destruct (__setitem__ name (trimf (universe self) abc) self)
      as [[r|e] s']; cbn [snd] in *.
    + rewrite IH. rewrite F at 1. reflexivity.
    + rewrite F at 1. now rewrite F.
Qed.

Lemma automf_keeps_active_and_identity (number : Z) (variable_type : string)
  (invert : bool) (self : FuzzyVariable) :
  let self' := snd (automf number variable_type invert self) in
  active self' = active self /\ same_identity self self'.
Proof.
  unfold automf, same_identity.
  destruct (negb (number =? 3)%Z && negb (number =? 5)%Z
            && negb (number =? 7)%Z); cbn [snd]; [repeat split|].
  destruct (ndarray_min (universe self)); cbn [snd]; [|repeat split].
  destruct (ndarray_max (universe self)); cbn [snd]; [|repeat split].
  unfold get_name. cbn [__name__ set_mf].
  destruct (__name__ self) as [n|] eqn:E; cbn [snd];
    [|repeat split; exact E].
  rewrite repopulate_only_mf.
  destruct (String.eqb n "Antecedent"); cbn; repeat split; exact E.
Qed.

(** X6: with a supported [number], [automf] on a variable whose universe is
    empty raises the [ValueError] of the minimum of an empty array, before
    anything is cleared: the instance, registry included, is as it was. *)
Theorem automf_empty_universe
  (number : Z) (variable_type : string) (invert : bool)
  (self : FuzzyVariable) :
  supported number ->
  universe self = [] ->
  automf number variable_type invert self
  = (Raised (zero_size_error "minimum"), self).
Proof.
  intros S U. unfold automf.
  replace (negb (number =? 3)%Z && negb (number =? 5)%Z
           && negb (number =? 7)%Z) with false
    by (destruct S as [->|[->| ->]]; reflexivity).
  now rewrite U.
Qed.

Lemma automf_empty_universe_witness :
  let self := __init__ 0 (PyList []) (Some "empty") in
  supported 5
  /\ universe self = []
  /\ automf 5 "quality" false self
     = (Raised
          (ValueError
             ("zero-size array to reduction operation minimum "
              ++ "which has no identity")%string),
        self).
Proof.
  intros self.
  assert (S : supported 5) by (right; left; reflexivity).
  assert (U : universe self = []) by reflexivity.
  split; [exact S|]. split; [exact U|].
  exact (automf_empty_universe 5 "quality" false self S U).
Defined.

(** X7: on an instance without [__name__] (one built by the base class),
    [automf] with a supported [number] and a non-empty universe raises the
    attribute error after it has cleared the registry: every membership
    function assigned before is gone, and the active label and the output
    slot are as they were. *)
Theorem automf_without_name_clears_registry
  (number : Z) (variable_type : string) (invert : bool)
  (self : FuzzyVariable) :
  __name__ self = None ->
  supported number ->
  universe self <> [] ->
  let result := automf number variable_type invert self in
  fst result = Raised no_name_error
  /\ mf (snd result) = []
  /\ active (snd result) = active self
  /\ output (snd result) = output self.
Proof.
  intros N S U result. unfold result.
  rewrite (automf_without_name number variable_type invert self N S U).
  repeat split.
Qed.

Lemma automf_without_name_clears_registry_witness :
  let self :=
    run_calls [Setitem "low" (PyList [1%Q; 0%Q; 0%Q])]
      (__init__ 0 (PyList [0%Q; 1%Q; 2%Q]) (Some "food")) in
  __name__ self = None
  /\ supported 3
  /\ universe self <> []
  /\ mf self = [("low", PyList [1%Q; 0%Q; 0%Q])]
  /\ mf (snd (automf 3 "quality" false self)) = [].
Proof.
  intros self.
  assert (N : __name__ self = None) by reflexivity.
  assert (S : supported 3) by (left; reflexivity).
  assert (U : universe self <> []) by discriminate.
  split; [exact N|]. split; [exact S|]. split; [exact U|].
  split; [reflexivity|].
  exact (proj1 (proj2 (automf_without_name_clears_registry 3 "quality" false
                         self N S U))).
Defined.

(** X8: the registry [automf] leaves does not depend on what was in it: for
    a supported [number], a name and a non-empty universe, whatever calls
    were made before, the call leaves the registry it leaves on the instance
    as first built; and a second call with the same arguments changes
    nothing. *)
Theorem automf_replaces_registry
  (number : Z) (variable_type : string) (invert : bool)
  (self : FuzzyVariable) (name : string) (cs : list call) :
  supported number ->
  __name__ self = Some name ->
  universe self <> [] ->
  mf (snd (automf number variable_type invert (run_calls cs self)))
  = mf (snd (automf number variable_type invert self))
  /\ automf number variable_type invert
       (snd (automf number variable_type invert self))
     = automf number variable_type invert self.
Proof.
  intros S N U.
  destruct (ndarray_limits (universe self) U) as [lo [hi [Lo Hi]]].
  destruct (run_calls_frame cs self) as [Ucs Ncs].
  rewrite (automf_supported number variable_type invert self name lo hi
             S N Lo Hi).
  split.
  - rewrite (automf_supported number variable_type invert
               (run_calls cs self) name lo hi S);
      [| congruence | now rewrite Ucs | now rewrite Ucs].
    cbn [snd after_automf mf]. now rewrite Ucs.
  - cbn [snd].
    rewrite (automf_supported number variable_type invert
               (after_automf self name
                  (automf_names number variable_type invert)
                  (automf_abcs lo hi number))
               name lo hi S eq_refl Lo Hi).
    reflexivity.
Qed.

Lemma automf_replaces_registry_witness :
  let self := food [] in
  let cs := [Setitem "low" (PyList [1%Q; 0%Q; 0%Q]); Getitem "low"] in
  supported 3
  /\ __name__ self = Some "Antecedent"
  /\ universe self <> []
  /\ mf (snd (automf 3 "quant" false (run_calls cs self)))
     = mf (snd (automf 3 "quant" false self)).
Proof.
  intros self cs.
  assert (S : supported 3) by (left; reflexivity).
  assert (N : __name__ self = Some "Antecedent") by reflexivity.
  assert (U : universe self <> []) by discriminate.
  split; [exact S|]. split; [exact N|]. split; [exact U|].
  exact (proj1 (automf_replaces_registry 3 "quant" false self "Antecedent"
                  cs S N U)).
Defined.

(** X9: a successful [automf] sets the output slot to an empty mapping when
    the instance's [__name__] is "Antecedent" and to [None] for any other
    name.  It never touches the active label, so a label activated before
    the call stays active even if the call has removed it from the
    registry. *)
Theorem automf_output_slot_and_active
  (number : Z) (variable_type : string) (invert : bool)
  (self : FuzzyVariable) (name : string) :
  supported number ->
  __name__ self = Some name ->
  universe self <> [] ->
  let self' := snd (automf number variable_type invert self) in
  (name = "Antecedent"%string -> output self' = Some OrderedDict.empty)
  /\ (name <> "Antecedent"%string -> output self' = None)
  /\ active self' = active self.
Proof.
  intros S N U self'.
  destruct (ndarray_limits (universe self) U) as [lo [hi [Lo Hi]]].
  unfold self'.
  rewrite (automf_supported number variable_type invert self name lo hi
             S N Lo Hi).
  cbn [snd after_automf output active].
  split; [|split; [|reflexivity]].
  - intros ->. reflexivity.
  - intros D. now rewrite (proj2 (String.eqb_neq name "Antecedent") D).
Qed.

Lemma automf_output_slot_and_active_witness :
  let self := food [Setitem "low" (PyList [1%Q; 0%Q; 0%Q]); Getitem "low"] in
  let self' := snd (automf 3 "quality" false self) in
  supported 3
  /\ __name__ self = Some "Antecedent"
  /\ universe self <> []
  /\ active self' = Some "low"
  /\ OrderedDict.contains "low" (mf self') = false
  /\ output self' = Some OrderedDict.empty.
Proof.
  intros self self'.
  assert (S : supported 3) by (left; reflexivity).
  assert (N : __name__ self = Some "Antecedent") by reflexivity.
  assert (U : universe self <> []) by discriminate.
  pose proof (automf_output_slot_and_active 3 "quality" false self
                "Antecedent" S N U) as T.
  cbv zeta in T. destruct T as [Out [_ Act]].
  split; [exact S|]. split; [exact N|]. split; [exact U|].
  split; [exact Act|]. split; [reflexivity|].
  exact (Out eq_refl).
Defined.

(** ** The labels automf registers *)

Lemma automf_names_middle (number : Z) (variable_type : string)
  (invert : bool) :
  supported number ->
  nth (Z.to_nat number / 2) (automf_names number variable_type invert)
    EmptyString
  = "average"%string.
Proof.
  intros S. unfold automf_names.
  destruct (String.eqb (lower variable_type) "quality"), invert;
    destruct S as [->|[->| ->]]; reflexivity.
Qed.

Lemma automf_supported_keys (number : Z) (variable_type : string)
  (invert : bool) (self : FuzzyVariable) (name : string) :
  supported number ->
  __name__ self = Some name ->
  universe self <> [] ->
  fst (automf number variable_type invert self) = Returned RNone
  /\ OrderedDict.keys (mf (snd (automf number variable_type invert self)))
     = automf_names number variable_type invert.
Proof.
  intros S N U.
  destruct (ndarray_limits (universe self) U) as [lo [hi [Lo Hi]]].
  rewrite (automf_supported number variable_type invert self name lo hi
             S N Lo Hi).
  cbn [fst snd]. split; [reflexivity|].
  apply after_automf_keys.
  destruct (automf_names_facts number variable_type invert S) as [_ [L _]].
  now rewrite L, automf_abcs_length.
Qed.

(** X10: for a supported [number], whatever the variable type and the
    naming order, a successful [automf] registers exactly [number] labels,
    no two alike, and "average" is the one in the middle. *)
Theorem automf_labels_centered
  (number : Z) (variable_type : string) (invert : bool)
  (self : FuzzyVariable) (name : string) :
  supported number ->
  __name__ self = Some name ->
  universe self <> [] ->
  let labels :=
    OrderedDict.keys (mf (snd (automf number variable_type invert self))) in
  List.length labels = Z.to_nat number
  /\ NoDup labels
  /\ nth (Z.to_nat number / 2) labels EmptyString = "average"%string.
Proof.
  intros S N U labels. unfold labels.
  rewrite (proj2 (automf_supported_keys number variable_type invert self
                    name S N U)).
  destruct (automf_names_facts number variable_type invert S) as [ND [L _]].
  split; [exact L|]. split; [exact ND|].
  now apply automf_names_middle.
Qed.

Lemma automf_labels_centered_witness :
  let self := food [] in
  supported 7
  /\ __name__ self = Some "Antecedent"
  /\ universe self <> []
  /\ nth 3 (OrderedDict.keys (mf (snd (automf 7 "quant" true self))))
       EmptyString
     = "average"%string.
Proof.
  intros self.
  assert (S : supported 7) by (right; right; reflexivity).
  assert (N : __name__ self = Some "Antecedent") by reflexivity.
  assert (U : universe self <> []) by discriminate.
  split; [exact S|]. split; [exact N|]. split; [exact U|].
  exact (proj2 (proj2 (automf_labels_centered 7 "quant" true self
                         "Antecedent" S N U))).
Defined.

(** X11: after a successful [automf], whatever its arguments, an indexed
    read of "average" succeeds: it returns the variable and makes "average"
    the active label. *)
Theorem automf_then_read_average
  (number : Z) (variable_type : string) (invert : bool)
  (self : FuzzyVariable) (name : string) :
  supported number ->
  __name__ self = Some name ->
  universe self <> [] ->
  let self' := snd (automf number variable_type invert self) in
  __getitem__ "average" self'
  = (Returned RSelf, set_active self' (Some "average"%string)).
Proof.
  intros S N U self'.
  assert (C : OrderedDict.contains "average" (mf self') = true).
  { apply od_contains_In. unfold self'.
    rewrite (proj2 (automf_supported_keys number variable_type invert self
                      name S N U)).
    now destruct (automf_names_facts number variable_type invert S)
      as [_ [_ I]]. }
  unfold __getitem__. now rewrite C.
Qed.

Lemma automf_then_read_average_witness :
  let self := food [] in
  supported 5
  /\ __name__ self = Some "Antecedent"
  /\ universe self <> []
  /\ active (snd (__getitem__ "average"
                    (snd (automf 5 "quality" true self))))
     = Some "average"%string.
Proof.
  intros self.
  assert (S : supported 5) by (right; left; reflexivity).
  assert (N : __name__ self = Some "Antecedent") by reflexivity.
  assert (U : universe self <> []) by discriminate.
  split; [exact S|]. split; [exact N|]. split; [exact U|].
  now rewrite (automf_then_read_average 5 "quality" true self "Antecedent"
                 S N U).
Defined.

Lemma lower_ascii_idempotent (c : ascii) :
  lower_ascii (lower_ascii c) = lower_ascii c.
Proof.
  destruct c as [[] [] [] [] [] [] [] []]; reflexivity.
Qed.

Lemma lower_idempotent (s : string) : lower (lower s) = lower s.
Proof.
  induction s as [|c s IH]; simpl; [reflexivity|].
  now rewrite lower_ascii_idempotent, IH.
Qed.

(** X12: [automf] reads the variable type without regard to case, and never
    rejects one: a type that lower-cases to "quality" acts as "quality", and
    every other string, whatever it is, acts as "quant". *)
Theorem automf_variable_type_case
  (number : Z) (variable_type : string) (invert : bool)
  (self : FuzzyVariable) :
  automf number variable_type invert self
  = automf number (lower variable_type) invert self
  /\ (lower variable_type = "quality"%string ->
      automf number variable_type invert self
      = automf number "quality" invert self)
  /\ (lower variable_type <> "quality"%string ->
      automf number variable_type invert self
      = automf number "quant" invert self).
Proof.
  unfold automf, automf_names. rewrite lower_idempotent.
  split; [reflexivity|]. split.
  - intros ->. reflexivity.
  - intros D. rewrite (proj2 (String.eqb_neq _ _) D). reflexivity.
Qed.

Lemma automf_variable_type_case_witness :
  let self := food [] in
  lower "Quality" = "quality"%string
  /\ lower "amount" <> "quality"%string
  /\ automf 3 "Quality" false self = automf 3 "quality" false self
  /\ automf 3 "amount" false self = automf 3 "quant" false self.
Proof.
  intros self.
  assert (E : lower "Quality" = "quality"%string) by reflexivity.
  assert (D : lower "amount" <> "quality"%string) by discriminate.
  split; [exact E|]. split; [exact D|]. split.
  - exact (proj1 (proj2 (automf_variable_type_case 3 "Quality" false self))
             E).
  - exact (proj2 (proj2 (automf_variable_type_case 3 "amount" false self))
             D).
Defined.

(** ** What holds after any calls *)

Lemma od_set_keys_NoDup {V : Type} (k : string) (v : V)
  (d : OrderedDict.t V) :
  NoDup (OrderedDict.keys d) ->
  NoDup (OrderedDict.keys (OrderedDict.set k v d)).
Proof.
  intros ND. rewrite od_keys_set.
  destruct (OrderedDict.contains k d) eqn:C; [exact ND|].
  apply NoDup_app; [exact ND | repeat constructor; simpl; tauto |].
  intros x I [<-|[]].
  apply od_contains_In in I. congruence.
Qed.

Lemma setitem_keys_NoDup (key : string) (item : array_like)
  (self : FuzzyVariable) :
  NoDup (OrderedDict.keys (mf self)) ->
  NoDup (OrderedDict.keys (mf (snd (__setitem__ key item self)))).
Proof.
  intros ND. unfold __setitem__.
  destruct (negb _); [now destruct (attr_size item)|].
  cbn [snd mf set_mf]. now apply od_set_keys_NoDup.
Qed.

Lemma repopulate_keys_NoDup (pairs : list (string * list Q)) :
  forall self,
    NoDup (OrderedDict.keys (mf self)) ->
    NoDup (OrderedDict.keys (mf (snd (repopulate pairs self)))).
Proof.
  induction pairs as [|[name abc] rest IH]; intros self ND; simpl.
  - exact ND.
  - pose proof (setitem_keys_NoDup name (trimf (universe self) abc) self ND)
      as ND'.
    destruct (__setitem__ name (trimf (universe self) abc) self)
      as [[r|e] s']; cbn [snd] in *; auto.
Qed.

Lemma automf_keys_NoDup (number : Z) (variable_type : string)
  (invert : bool) (self : FuzzyVariable) :
  NoDup (OrderedDict.keys (mf self)) ->
  NoDup (OrderedDict.keys
           (mf (snd (automf number variable_type invert self)))).
Proof.
  intros ND. unfold automf.
  destruct (negb (number =? 3)%Z && negb (number =? 5)%Z
            && negb (number =? 7)%Z); [exact ND|].
  destruct (ndarray_min (universe self)); [|exact ND].
  destruct (ndarray_max (universe self)); [|exact ND].
  destruct (get_name (set_mf self OrderedDict.empty)) as [n|e];
    [|constructor].
  apply repopulate_keys_NoDup.
  destruct (String.eqb n "Antecedent"); constructor.
Qed.

Lemma run_calls_keys_NoDup (cs : list call) :
  forall self,
    NoDup (OrderedDict.keys (mf self)) ->
    NoDup (OrderedDict.keys (mf (run_calls cs self))).
Proof.
  induction cs as [|c cs IH]; intros self ND; [exact ND|].
  apply IH. destruct c; cbn [run_call].
  - destruct (getitem_frame key self) as [_ [_ Mf]]. now rewrite Mf.
  - now apply setitem_keys_NoDup.
  - now apply automf_keys_NoDup.
Qed.

(** X13: whatever calls are made on a new instance, plain or named, no
    label ever appears twice in its registry. *)
Theorem labels_stay_unique
  (name : option string) (addr : Z) (u : array_like) (lbl : option string)
  (cs : list call) :
  NoDup (OrderedDict.keys (mf (run_calls cs (construct name addr u lbl)))).
Proof.
  apply run_calls_keys_NoDup. destruct name; constructor.
Qed.

Lemma run_call_identity (c : call) (self : FuzzyVariable) :
  same_identity self (snd (run_call c self)).
Proof.
  destruct c; cbn [run_call].
  - unfold __getitem__, same_identity.
    destruct (OrderedDict.contains key (mf self));
      [|destruct (get_name self)]; repeat split.
  - rewrite setitem_only_mf. repeat split.
  - apply automf_keeps_active_and_identity.
Qed.

(** X14: no call changes what the variable was built with: after any
    sequence of indexed reads, indexed writes and [automf] calls, raising or
    not, the universe, the label, the connections, the identity and the
    [__name__] are those the sequence started from. *)
Theorem calls_keep_identity (cs : list call) (self : FuzzyVariable) :
  same_identity self (run_calls cs self).
Proof.
  revert self. induction cs as [|c cs IH]; intros self.
  - repeat split.
  - specialize (IH (snd (run_call c self))).
    pose proof (run_call_identity c self) as F.
    unfold same_identity in *. cbn [run_calls fold_left] in *.
    unfold run_calls in IH.
    destruct IH as [U [L [C [I N]]]]. destruct F as [U' [L' [C' [I' N']]]].
    repeat split; congruence.
Qed.

(** ** The figure *)

Lemma curves_app (made made' : list ax_call) :
  curves (made ++ made') = curves made ++ curves made'.
Proof.
  induction made as [|c made IH]; [reflexivity|].
  destruct c; simpl; now rewrite IH.
Qed.

Lemma curves_plot_calls (self : FuzzyVariable) :
  curves (plot_calls self)
  = map (fun kv : string * array_like =>
           (fst kv, if is_active self (fst kv) then 2 else 1))
        (mf self).
Proof.
  unfold plot_calls.
  induction (mf self) as [|[k v] d IH]; [reflexivity|].
  simpl. now rewrite IH.
Qed.

Lemma figure_curves (self : FuzzyVariable) :
  universe self <> [] ->
  snd (_variable_figure_generator self) = Returned RNone
  /\ curves (fst (_variable_figure_generator self))
     = map (fun kv : string * array_like =>
              (fst kv, if is_active self (fst kv) then 2 else 1))
           (mf self).
Proof.
  intros U. unfold _variable_figure_generator.
  destruct (ndarray_limits (universe self) U) as [lo [hi [Lo Hi]]].
  rewrite Lo, Hi. cbn [fst snd]. split; [reflexivity|].
  rewrite !curves_app, curves_plot_calls. cbn [curves app].
  now rewrite !app_nil_r.
Qed.

(** X15: on a variable whose universe is not empty the figure generator
    returns normally and draws one curve for each registered label, labelled
    with it, in the order of the registry; the x-axis is set to limits that
    are points of the universe and that no point of the universe lies
    outside. *)
Theorem figure_draws_every_label (self : FuzzyVariable) :
  universe self <> [] ->
  let made := fst (_variable_figure_generator self) in
  snd (_variable_figure_generator self) = Returned RNone
  /\ map fst (curves made) = OrderedDict.keys (mf self)
  /\ exists lo hi,
       In (SetXlim lo hi) made
       /\ In lo (universe self) /\ In hi (universe self)
       /\ Forall (fun x => (lo <= x)%Q /\ (x <= hi)%Q) (universe self).
Proof.
  intros U made.
  destruct (figure_curves self U) as [R C].
  split; [exact R|]. split.
  - unfold made. rewrite C, map_map. reflexivity.
  - destruct (ndarray_limits (universe self) U) as [lo [hi [Lo Hi]]].
    exists lo, hi.
    destruct (ndarray_min_least _ _ Lo) as [Il Al].
    destruct (ndarray_max_greatest _ _ Hi) as [Ih Ah].
    split; [|split; [exact Il|split; [exact Ih|]]].
    + unfold made, _variable_figure_generator. rewrite Lo, Hi.
      cbn [fst]. rewrite <- !app_assoc. simpl. right. now left.
    + rewrite Forall_forall in *. intros x I. split; auto.
Qed.

Lemma figure_draws_every_label_witness :
  let self := food [Setitem "low" (PyList [1%Q; 0%Q; 0%Q]);
                    Setitem "high" (PyList [0%Q; 0%Q; 1%Q])] in
  universe self <> []
  /\ map fst (curves (fst (_variable_figure_generator self)))
     = ["low"%string; "high"%string].
Proof.
  intros self.
  assert (U : universe self <> []) by discriminate.
  split; [exact U|].
  exact (proj1 (proj2 (figure_draws_every_label self U))).
Defined.

Lemma emphasised_only (self : FuzzyVariable) (key : string) :
  active self = Some key ->
  forall d : OrderedDict.t array_like,
    NoDup (OrderedDict.keys d) ->
    map fst
      (filter (fun c : string * Z => (snd c =? 2)%Z)
         (map (fun kv : string * array_like =>
                 (fst kv, if is_active self (fst kv) then 2 else 1))
            d))
    = if OrderedDict.contains key d then [key] else [].
Proof.
  intros A d. unfold is_active. rewrite A.
  induction d as [|[k v] d IH]; intros ND; [reflexivity|].
  inversion ND as [|? ? NotIn ND']; subst.
  cbn [map filter fst snd OrderedDict.contains].
  rewrite (String.eqb_sym key k).
  destruct (String.eqb_spec k key) as [->|D]; cbn.
  - rewrite (IH ND').
    destruct (OrderedDict.contains key d) eqn:C; [|reflexivity].
    apply od_contains_In in C. now elim NotIn.
  - exact (IH ND').
Qed.

(** X16: after any calls on a new instance with a non-empty universe, once
    an indexed read of a label has succeeded the figure draws that label's
    curve, and no other, with the heavier line (width 2). *)
Theorem figure_emphasises_the_label_read
  (name : option string) (addr : Z) (u : array_like) (lbl : option string)
  (cs : list call) (key : string) :
  let self := run_calls cs (construct name addr u lbl) in
  universe self <> [] ->
  fst (__getitem__ key self) = Returned RSelf ->
  emphasised (fst (_variable_figure_generator (snd (__getitem__ key self))))
  = [key].
Proof.
  intros self U R.
  assert (ND : NoDup (OrderedDict.keys (mf self))).
  { apply run_calls_keys_NoDup. destruct name; constructor. }
  unfold __getitem__ in *.
  destruct (OrderedDict.contains key (mf self)) eqn:C;
    [|destruct (get_name self); discriminate].
  cbn [snd]. unfold emphasised.
  rewrite (proj2 (figure_curves (set_active self (Some key)) U)).
  rewrite (emphasised_only (set_active self (Some key)) key eq_refl
             (mf (set_active self (Some key))) ND).
  cbn [mf set_active]. now rewrite C.
Qed.

Lemma figure_emphasises_the_label_read_witness :
  let cs := [Setitem "low" (PyList [1%Q; 0%Q; 0%Q]);
             Setitem "high" (PyList [0%Q; 0%Q; 1%Q]);
             Getitem "low"] in
  let self :=
    run_calls cs
      (construct (Some "Antecedent"%string) 0 (PyList [0%Q; 1%Q; 2%Q])
         (Some "food"%string)) in
  universe self <> []
  /\ fst (__getitem__ "high" self) = Returned RSelf
  /\ emphasised
       (fst (_variable_figure_generator (snd (__getitem__ "high" self))))
     = ["high"%string].
Proof.
  intros cs self.
  assert (U : universe self <> []) by discriminate.
  assert (R : fst (__getitem__ "high" self) = Returned RSelf)
    by reflexivity.
  split; [exact U|]. split; [exact R|].
  exact (figure_emphasises_the_label_read (Some "Antecedent"%string) 0
           (PyList [0%Q; 1%Q; 2%Q]) (Some "food"%string) cs "high" U R).
Defined.

(** X17: on a variable whose universe is empty the figure generator raises
    the [ValueError] of the minimum of an empty array when it sets the
    x-limits: the y-limits have been set, and no curve, legend or axis label
    has been drawn. *)
Theorem figure_empty_universe (self : FuzzyVariable) :
  universe self = [] ->
  _variable_figure_generator self
  = ([SetYlim 0 1], Raised (zero_size_error "minimum")).
Proof.
  intros U. unfold _variable_figure_generator. now rewrite U.
Qed.

Lemma figure_empty_universe_witness :
  let self := __init__ 0 (PyList []) None in
  universe self = []
  /\ curves (fst (_variable_figure_generator self)) = [].
Proof.
  intros self.
  assert (U : universe self = []) by reflexivity.
  split; [exact U|].
  now rewrite (figure_empty_universe self U).
Defined.

(** ** A registry with nothing in it *)

(** X18: on a named instance whose registry is empty, as it is right after
    construction, an indexed read of any label raises the [ValueError]
    whose list of available options is empty: the message ends right after
    "Available options: ", and the instance is not changed. *)
Theorem read_from_empty_registry
  (key name : string) (self : FuzzyVariable) :
  __name__ self = Some name ->
  mf self = [] ->
  __getitem__ key self
  = (Raised (ValueError
               ("Membership function '" ++ key ++ "' does not exist for "
                ++ name ++ " " ++ str_opt (label self) ++ "." ++ nl
                ++ "Available options: ")%string),
     self).
Proof.
  intros N E.
  rewrite (getitem_unregistered key name self N)
    by (rewrite E; reflexivity).
  rewrite E. unfold getitem_message. cbn [OrderedDict.keys map options_text].
  now rewrite append_nil_r.
Qed.

Lemma read_from_empty_registry_witness :
  let self := init_named "Consequent" 0 (PyList [0%Q; 1%Q]) None in
  __name__ self = Some "Consequent"%string
  /\ mf self = []
  /\ __getitem__ "low" self
     = (Raised (ValueError
                  ("Membership function 'low' does not exist for "
                   ++ "Consequent None." ++ nl
                   ++ "Available options: ")%string),
        self).
Proof.
  intros self.
  assert (N : __name__ self = Some "Consequent"%string) by reflexivity.
  assert (E : mf self = []) by reflexivity.
  split; [exact N|]. split; [exact E|].
  exact (read_from_empty_registry "low" "Consequent" self N E).
Defined.

(** ** automf, all cases together *)

Lemma supported_dec (number : Z) : {supported number} + {~ supported number}.
Proof.
  unfold supported.
  destruct (Z.eq_dec number 3); [left; tauto|].
  destruct (Z.eq_dec number 5); [left; tauto|].
  destruct (Z.eq_dec number 7); [left; tauto|].
  right. tauto.
Qed.

Lemma automf_supported_empty (number : Z) (variable_type : string)
  (invert : bool) (self : FuzzyVariable) :
  supported number ->
  universe self = [] ->
  snd (automf number variable_type invert self) = self.
Proof.
  intros S U. unfold automf.
  replace (negb (number =? 3)%Z && negb (number =? 5)%Z
           && negb (number =? 7)%Z) with false
    by (destruct S as [->|[->| ->]]; reflexivity).
  now rewrite U.
Qed.

(** X19: [automf] never leaves a registry that is partly filled.  Whatever
    its arguments and the instance, after the call the registry is either
    what it was before, or empty, or, when the call returned [None], holds
    exactly [number] entries under the labels chosen for [number], the
    variable type and the naming order, in that order. *)
Theorem automf_registry_all_or_nothing
  (number : Z) (variable_type : string) (invert : bool)
  (self : FuzzyVariable) :
  let result := automf number variable_type invert self in
  mf (snd result) = mf self
  \/ mf (snd result) = []
  \/ (fst result = Returned RNone
      /\ List.length (mf (snd result)) = Z.to_nat number
      /\ OrderedDict.keys (mf (snd result))
         = automf_names number variable_type invert).
Proof.
  intros result. unfold result.
  destruct (supported_dec number) as [S|NS].
  - destruct (universe self) as [|x xs] eqn:U.
    + left. now rewrite (automf_supported_empty _ _ _ _ S U).
    + assert (NE : universe self <> []) by congruence.
      destruct (__name__ self) as [name|] eqn:N.
      * right; right.
        destruct (automf_supported_keys number variable_type invert self
                    name S N NE) as [R K].
        split; [exact R|]. split; [|exact K].
        rewrite <- (length_map fst). change (map fst ?d)
          with (OrderedDict.keys d). rewrite K.
        now destruct (automf_names_facts number variable_type invert S)
          as [_ [L _]].
      * right; left.
        now rewrite (automf_without_name number variable_type invert self
                       N S NE).
  - left. now rewrite (automf_unsupported _ _ _ _ NS).
Qed.
